(** * Live weather dashboard (app.py): a shallow embedding

    The dashboard is one Python script: a static table from WMO weather
    codes to emoji, two functions that build a query and call an HTTP
    API, and a page body that renders three tabs.  This file embeds the
    script function by function.

    - Python values that travel through the script (JSON payloads, query
      parameters, return tuples) are the inductive type [pyval].
    - Python exceptions are the error side of [result]; code that also
      talks to the outside (Streamlit widgets, HTTP requests) runs in
      [ui], a writer of [event]s over [result].
    - The outside world is a record [world]: an oracle that answers HTTP
      requests and the clock read by [datetime.utcnow()].
    - What the script takes from libraries without the library being
      part of the repository (text of an exception, [str.title],
      [repr] of a string, pandas frames, [%Y] of a year below 1000) is
      a field of the class [Runtime].
    - [get_coordinates], [fetch_weather_data] and [main] are the bodies
      of the functions and of the page, which is what runs when nothing
      is answered from a cache; the [st.cache_data] decorators are the
      wrapper [cache_data], and [cached_main] is the page with the
      decorated functions, given what the caches hold. *)

From Stdlib Require Import ZArith Lia String Ascii List DecimalString.
From stdpp Require Import base option gmap strings list.

Open Scope string_scope.
Open Scope Z_scope.

(** ** Exceptions and the two effect layers *)

Inductive exn : Type :=
  | TypeError (msg : string)
  | KeyError (key : string)
  | IndexError (msg : string)
  | AttributeError (msg : string)
  | OverflowError (msg : string)
  | ValueError (msg : string)
  | RecursionError (msg : string).

Inductive result (A : Type) : Type :=
  | Ok (a : A)
  | Raise (e : exn).
Arguments Ok {A} a.
Arguments Raise {A} e.

#[global] Instance result_ret : MRet result := fun _ a => Ok a.
#[global] Instance result_bind : MBind result := fun _ _ f m =>
  match m with
  | Ok a => f a
  | Raise e => Raise e
  end.

(** ** Python values *)

(** A float is kept as the decimal that [repr] prints for it: the
    shortest digit string [digits] that reads back as the same double,
    and the position [decpt] of the decimal point, so that the value is
    [0.digits * 10^decpt].  21.5 is [FFin false "215" 2]. *)
Inductive pyfloat : Type :=
  | FNan
  | FInf (neg : bool)
  | FFin (neg : bool) (digits : string) (decpt : Z).

#[warnings="-register-all"]
Inductive pyval : Type :=
  | PNone
  | PBool (b : bool)
  | PInt (z : Z)
  | PFloat (f : pyfloat)
  | PStr (s : string)
  | PList (l : list pyval)
  | PDict (d : list (string * pyval)).

(** [str(int)] *)
Definition int_str (z : Z) : string := NilZero.string_of_int (Z.to_int z).

Definition digits_value (ds : string) : Z :=
  match NilZero.uint_of_string ds with
  | Some u => Z.of_N (N.of_uint u)
  | None => 0
  end.

Fixpoint zeros (n : nat) : string :=
  match n with
  | O => ""
  | S n' => String "0" (zeros n')
  end.

(** [repr(float)], which is also [str(float)] and what an f-string
    prints: positional notation when [-4 < decpt <= 16], otherwise
    scientific notation with an exponent of at least two digits. *)
Definition float_repr (f : pyfloat) : string :=
  match f with
  | FNan => "nan"
  | FInf neg => if neg then "-inf" else "inf"
  | FFin neg ds decpt =>
      let sign := if neg then "-" else "" in
      let n := Z.of_nat (String.length ds) in
      if (decpt <=? -4) || (16 <? decpt) then
        let mant :=
          match ds with
          | EmptyString => ""
          | String c EmptyString => String c EmptyString
          | String c rest => String c ("." +:+ rest)
          end in
        let e := decpt - 1 in
        let es := int_str (Z.abs e) in
        sign +:+ mant +:+ "e" +:+ (if e <? 0 then "-" else "+")
             +:+ (if Z.abs e <? 10 then "0" +:+ es else es)
      else if decpt <=? 0 then
        sign +:+ "0." +:+ zeros (Z.to_nat (- decpt)) +:+ ds
      else if n <=? decpt then
        sign +:+ ds +:+ zeros (Z.to_nat (decpt - n)) +:+ ".0"
      else
        sign +:+ substring 0 (Z.to_nat decpt) ds +:+ "."
             +:+ substring (Z.to_nat decpt) (Z.to_nat (n - decpt)) ds
  end.

(** The integer a float is equal to, if any ([3.0 == 3]). *)
Definition float_int_value (f : pyfloat) : option Z :=
  match f with
  | FNan | FInf _ => None
  | FFin neg ds decpt =>
      let n := Z.of_nat (String.length ds) in
      let d := digits_value ds in
      let signed (v : Z) := if neg then - v else v in
      if n <=? decpt then Some (signed (d * 10 ^ (decpt - n)))
      else if d mod 10 ^ (n - decpt) =? 0
           then Some (signed (d / 10 ^ (n - decpt)))
           else None
  end.

Definition float_is_zero (f : pyfloat) : bool :=
  match f with
  | FFin _ ds _ => digits_value ds =? 0
  | _ => false
  end.

(** [bool(v)], the test of an [if]. *)
Definition truthy (v : pyval) : bool :=
  match v with
  | PNone => false
  | PBool b => b
  | PInt z => negb (z =? 0)
  | PFloat f => negb (float_is_zero f)
  | PStr s => negb (String.eqb s "")
  | PList l => match l with [] => false | _ => true end
  | PDict d => match d with [] => false | _ => true end
  end.

Definition is_none (v : pyval) : bool :=
  match v with PNone => true | _ => false end.

(** *** Dictionaries with string keys

    A [dict] keeps insertion order, which [str] shows, so it is an
    association list; keys are unique in a Python dict and lookup takes
    the first binding. *)
Fixpoint dict_lookup {A} (k : string) (d : list (string * A)) : option A :=
  match d with
  | [] => None
  | (k', v) :: d' => if String.eqb k k' then Some v else dict_lookup k d'
  end.

(** [d[k] = v]: overwrite in place, or append a new key at the end. *)
Fixpoint dict_set {A} (k : string) (v : A) (d : list (string * A))
  : list (string * A) :=
  match d with
  | [] => [(k, v)]
  | (k', v') :: d' =>
      if String.eqb k k' then (k, v) :: d' else (k', v') :: dict_set k v d'
  end.

(** [obj.get(k, dflt)]: only a dict has the method. *)
Definition py_get (obj : pyval) (k : string) (dflt : pyval) : result pyval :=
  match obj with
  | PDict d => Ok (default dflt (dict_lookup k d))
  | _ => Raise (AttributeError "object has no attribute 'get'")
  end.

Definition is_str (s : string) (v : pyval) : bool :=
  match v with PStr s' => String.eqb s s' | _ => false end.

(** [k in obj] for a string [k]: a key of a dict, an element of a list,
    a substring of a string; other values are not containers. *)
Definition py_contains (k : string) (obj : pyval) : result bool :=
  match obj with
  | PDict d => Ok (bool_decide (is_Some (dict_lookup k d)))
  | PList l => Ok (existsb (is_str k) l)
  | PStr s => Ok (bool_decide (is_Some (String.index 0 k s)))
  | _ => Raise (TypeError "argument is not iterable")
  end.

(** [obj[k]] for a string [k]. *)
Definition py_getitem (obj : pyval) (k : string) : result pyval :=
  match obj with
  | PDict d =>
      match dict_lookup k d with
      | Some v => Ok v
      | None => Raise (KeyError k)
      end
  | PList _ | PStr _ => Raise (TypeError "indices must be integers")
  | _ => Raise (TypeError "object is not subscriptable")
  end.

(** A Python string is a sequence of code points and a [string] here is
    its UTF-8 encoding: a byte [10xxxxxx] continues the code point that
    the bytes before it began. *)
Definition is_continuation (c : ascii) : bool :=
  match c with
  | Ascii _ _ _ _ _ _ b6 b7 => b7 && negb b6
  end.

Fixpoint code_points (s : string) : nat :=
  match s with
  | EmptyString => O
  | String c s' =>
      if is_continuation c then code_points s' else S (code_points s')
  end.

Fixpoint continuation_prefix (s : string) : string :=
  match s with
  | EmptyString => EmptyString
  | String c s' =>
      if is_continuation c then String c (continuation_prefix s')
      else EmptyString
  end.

(** [obj[0]] *)
Definition py_first (obj : pyval) : result pyval :=
  match obj with
  | PList l =>
      match l !! 0%nat with
      | Some v => Ok v
      | None => Raise (IndexError "list index out of range")
      end
  | PStr s =>
      match s with
      | String c s' => Ok (PStr (String c (continuation_prefix s')))
      | EmptyString => Raise (IndexError "string index out of range")
      end
  | PDict _ => Raise (KeyError "0")
  | _ => Raise (TypeError "object is not subscriptable")
  end.

(** [len(obj)] *)
Definition py_len (obj : pyval) : result Z :=
  match obj with
  | PList l => Ok (Z.of_nat (length l))
  | PDict d => Ok (Z.of_nat (length d))
  | PStr s => Ok (Z.of_nat (code_points s))
  | _ => Raise (TypeError "object has no len()")
  end.

(** ** What the script takes from its libraries

    Functions of CPython, requests and pandas that the script calls and
    whose code is no part of the repository. *)
Inductive request_exception : Type :=
  | ConnectionError (detail : string)
  | HTTPError (status : Z)
  | JSONDecodeError (detail : string).

Class Runtime : Type := {
  (** [repr(s)] of a string: quoting and escaping *)
  str_repr : string -> string;
  (** [s.title()] *)
  str_title : string -> string;
  (** [str(e)] of an exception raised by requests *)
  exception_text : request_exception -> string;
  (** a pandas DataFrame *)
  frame : Type;
  (** [df = pd.DataFrame(d); df['time'] = pd.to_datetime(df['time']);
      df.set_index('time', inplace=True)] *)
  time_indexed_frame : pyval -> result frame;
  (** [df[columns]]: the frame of the listed columns; pandas raises a
      [KeyError] when one of them is not in the frame *)
  select_columns : frame -> list string -> result frame;
  (** [df.rename(columns=names, inplace=True)]: a name that is no column
      of the frame is ignored *)
  rename_columns : frame -> list (string * string) -> frame;
  (** [%Y] of [strftime] for a year below 1000, where the C library of
      the platform decides: glibc prints 999, others print 0999 *)
  strftime_short_year : Z -> string
}.

Section Printing.
Context `{RT : Runtime}.

(** [repr(v)] *)
Fixpoint py_repr (v : pyval) : string :=
  match v with
  | PNone => "None"
  | PBool b => if b then "True" else "False"
  | PInt z => int_str z
  | PFloat f => float_repr f
  | PStr s => str_repr s
  | PList l =>
      "[" +:+ (fix items (l : list pyval) : string :=
                 match l with
                 | [] => ""
                 | [x] => py_repr x
                 | x :: r => py_repr x +:+ ", " +:+ items r
                 end) l +:+ "]"
  | PDict d =>
      "{" +:+ (fix items (d : list (string * pyval)) : string :=
                 match d with
                 | [] => ""
                 | [(k, x)] => str_repr k +:+ ": " +:+ py_repr x
                 | (k, x) :: r =>
                     str_repr k +:+ ": " +:+ py_repr x +:+ ", " +:+ items r
                 end) d +:+ "}"
  end.

(** [str(v)], what [f"{v}"] prints: a string prints as itself, every
    other value as its [repr]. *)
Definition py_str (v : pyval) : string :=
  match v with
  | PStr s => s
  | _ => py_repr v
  end.
End Printing.

(** ** The icon table (app.py, lines 12-28) *)

Definition UNKNOWN_ICON : string := "❓".

Definition WEATHER_ICONS : gmap Z string :=
  list_to_map
    [ (0, "☀️"); (1, "🌤️"); (2, "⛅️"); (3, "☁️");
      (45, "🌫️"); (48, "🌫️");
      (51, "🌦️"); (53, "🌦️"); (55, "🌦️");
      (56, "🌨️"); (57, "🌨️");
      (61, "🌧️"); (63, "🌧️"); (65, "🌧️");
      (66, "🌨️"); (67, "🌨️");
      (71, "❄️"); (73, "❄️"); (75, "❄️");
      (77, "❄️");
      (80, "🌧️"); (81, "🌧️"); (82, "🌧️");
      (85, "❄️"); (86, "❄️");
      (95, "⛈️"); (96, "⛈️"); (99, "⛈️") ].

(** The key of the integer-keyed table that a Python value hashes and
    compares equal to: an int is itself, [True == 1], [3.0 == 3]; [None]
    and strings equal no int; a list or a dict cannot be hashed. *)
Definition int_key (k : pyval) : result (option Z) :=
  match k with
  | PNone => Ok None
  | PBool b => Ok (Some (if b then 1 else 0))
  | PInt z => Ok (Some z)
  | PFloat f => Ok (float_int_value f)
  | PStr _ => Ok None
  | PList _ => Raise (TypeError "unhashable type: 'list'")
  | PDict _ => Raise (TypeError "unhashable type: 'dict'")
  end.

(** [WEATHER_ICONS.get(weather_code, "❓")] *)
Definition get_weather_icon (weather_code : pyval) : result string :=
  key ← int_key weather_code;
  Ok (default UNKNOWN_ICON (key ≫= (WEATHER_ICONS !!.))).

(** ** Dates (the part of Python's [datetime] that the script uses)

    [datetime.utcnow()], [timedelta(days=n)], subtraction and
    [strftime('%Y-%m-%d')], after the algorithms of the standard
    library's datetime module: dates are counted as proleptic Gregorian
    ordinals, 0001-01-01 being day 1. *)
Module Datetime.

Record datetime : Type := {
  year : Z; month : Z; day : Z;
  hour : Z; minute : Z; second : Z; microsecond : Z
}.

Record timedelta : Type := {
  days : Z; seconds : Z; microseconds : Z
}.

Definition MAXORDINAL : Z := 3652059.

Definition DAYS_IN_MONTH : list Z :=
  [-1; 31; 28; 31; 30; 31; 30; 31; 31; 30; 31; 30; 31].

Definition DAYS_BEFORE_MONTH : list Z :=
  [-1; 0; 31; 59; 90; 120; 151; 181; 212; 243; 273; 304; 334].

(** [table[i]] of the two tables above, which are only ever indexed
    with a month number from 1 to 12. *)
Definition table_at (table : list Z) (i : Z) : Z :=
  nth (Z.to_nat i) table (-1).

Definition is_leap (y : Z) : bool :=
  (y mod 4 =? 0) && (negb (y mod 100 =? 0) || (y mod 400 =? 0)).

Definition days_before_year (y : Z) : Z :=
  let y := y - 1 in
  y * 365 + y / 4 - y / 100 + y / 400.

Definition days_in_month (y m : Z) : Z :=
  if (m =? 2) && is_leap y then 29 else table_at DAYS_IN_MONTH m.

Definition days_before_month (y m : Z) : Z :=
  table_at DAYS_BEFORE_MONTH m + (if (2 <? m) && is_leap y then 1 else 0).

Definition ymd2ord (y m d : Z) : Z :=
  days_before_year y + days_before_month y m + d.

Definition DI400Y : Z := Eval cbv in days_before_year 401.
Definition DI100Y : Z := Eval cbv in days_before_year 101.
Definition DI4Y : Z := Eval cbv in days_before_year 5.

Definition ord2ymd (n : Z) : Z * Z * Z :=
  let n := n - 1 in
  let n400 := n / DI400Y in
  let n := n mod DI400Y in
  let y := n400 * 400 + 1 in
  let n100 := n / DI100Y in
  let n := n mod DI100Y in
  let n4 := n / DI4Y in
  let n := n mod DI4Y in
  let n1 := n / 365 in
  let n := n mod 365 in
  let y := y + (n100 * 100 + n4 * 4 + n1) in
  if (n1 =? 4) || (n100 =? 4) then (y - 1, 12, 31)
  else
    let leapyear := (n1 =? 3) && (negb (n4 =? 24) || (n100 =? 3)) in
    let m := Z.shiftr (n + 50) 5 in
    let preceding :=
      table_at DAYS_BEFORE_MONTH m
      + (if (2 <? m) && leapyear then 1 else 0) in
    if n <? preceding then
      let m := m - 1 in
      let preceding :=
        preceding
        - (table_at DAYS_IN_MONTH m
           + (if (m =? 2) && leapyear then 1 else 0)) in
      (y, m, n - preceding + 1)
    else (y, m, n - preceding + 1).

Definition toordinal (t : datetime) : Z :=
  ymd2ord (year t) (month t) (day t).

(** [timedelta(days=d, seconds=s, microseconds=us)]: the three fields
    are normalised, and the number of days is bounded. *)
Definition timedelta_new (d s us : Z) : result timedelta :=
  let s := s + us / 1000000 in
  let us := us mod 1000000 in
  let d := d + s / 86400 in
  let s := s mod 86400 in
  if 999999999 <? Z.abs d
  then Raise (OverflowError "days out of range for timedelta")
  else Ok {| days := d; seconds := s; microseconds := us |}.

Definition timedelta_days (d : Z) : result timedelta := timedelta_new d 0 0.

Definition timedelta_neg (td : timedelta) : result timedelta :=
  timedelta_new (- days td) (- seconds td) (- microseconds td).

(** [td1 + td2] *)
Definition timedelta_add (td1 td2 : timedelta) : result timedelta :=
  timedelta_new (days td1 + days td2) (seconds td1 + seconds td2)
    (microseconds td1 + microseconds td2).

(** [t + td]: the moment [t] is turned into the time elapsed since day 0,
    [td] is added, and the sum is turned back into a date and a time of
    day. *)
Definition datetime_add (t : datetime) (td : timedelta) : result datetime :=
  delta ← timedelta_new (toordinal t)
             (hour t * 3600 + minute t * 60 + second t) (microsecond t);
  delta ← timedelta_add delta td;
  let h := seconds delta / 3600 in
  let rem := seconds delta mod 3600 in
  let mi := rem / 60 in
  let s := rem mod 60 in
  if (0 <? days delta) && (days delta <=? MAXORDINAL) then
    let '(y, m, d) := ord2ymd (days delta) in
    Ok {| year := y; month := m; day := d;
          hour := h; minute := mi; second := s;
          microsecond := microseconds delta |}
  else Raise (OverflowError "date value out of range").

(** [t - td], which Python computes as [t + (-td)] *)
Definition datetime_sub (t : datetime) (td : timedelta) : result datetime :=
  ntd ← timedelta_neg td;
  datetime_add t ntd.

Definition pad (width : nat) (z : Z) : string :=
  let s := int_str z in
  zeros (width - String.length s) +:+ s.

(** [%Y]: the year in decimal, which has four digits from the year 1000
    on; below, the platform decides on the padding. *)
Definition strftime_Y `{RT : Runtime} (y : Z) : string :=
  if 1000 <=? y then int_str y else strftime_short_year y.

(** [t.strftime('%Y-%m-%d')] *)
Definition strftime_ymd `{RT : Runtime} (t : datetime) : string :=
  strftime_Y (year t) +:+ "-" +:+ pad 2 (month t) +:+ "-" +:+ pad 2 (day t).

(** What a clock can return: a date of the calendar and a time of the
    day. *)
Definition valid_date (y m d : Z) : Prop :=
  1 <= y <= 9999 /\ 1 <= m <= 12 /\ 1 <= d <= days_in_month y m.

Definition valid (t : datetime) : Prop :=
  valid_date (year t) (month t) (day t)
  /\ 0 <= hour t < 24 /\ 0 <= minute t < 60 /\ 0 <= second t < 60
  /\ 0 <= microsecond t < 1000000.

End Datetime.

(** ** The outside world *)

(** What happens to one [requests.get] and the two calls on its
    response: the call itself fails, or a response arrives with a
    status and a body that is JSON or is not, or one of the three calls
    raises an exception that is no [RequestException] ([json] raises
    [ValueError] for an integer literal longer than the interpreter's
    digit limit and [RecursionError] for a body nested too deep). *)
Inductive http_outcome : Type :=
  | Failed (detail : string)
  | Responded (status : Z) (body : string + pyval)
  | Crashed (e : exn).

Record world : Type := {
  http : string -> list (string * pyval) -> http_outcome;
  utcnow : Datetime.datetime
}.

Section App.
Context `{RT : Runtime}.

(** What the script does to the outside, in order. *)
Inductive event : Type :=
  | HttpGet (url : string) (params : list (string * pyval))
  | StPageConfig (layout page_title : string)
  | StTitle (text : string)
  | StTextInput (label value : string)
  | StSubheader (text : string)
  | StError (text : string)
  | StWarning (text : string)
  | StTabs (names : list string)
  | StColumns (n : nat)
  | StMetric (column : nat) (label value : string)
  | StLineChart (df : frame)
  | StBarChart (df : frame)
  | StDataframe (df : frame)
  | InTab (i : nat) (e : event)
  | InExpander (label : string) (e : event).

Definition ui (A : Type) : Type := (list event * result A)%type.

#[global] Instance ui_ret : MRet ui := fun _ a => ([], Ok a).
#[global] Instance ui_bind : MBind ui := fun _ _ f m =>
  match m with
  | (es, Ok a) => let '(es', r) := f a in ((es ++ es')%list, r)
  | (es, Raise e) => (es, Raise e)
  end.

Definition emit (e : event) : ui unit := ([e], Ok tt).
Definition lift {A} (r : result A) : ui A := ([], r).
Definition within {A} (wrap : event -> event) (m : ui A) : ui A :=
  (wrap <$> m.1, m.2).

Definition trace {A} (m : ui A) : list event := m.1.
Definition outcome {A} (m : ui A) : result A := m.2.

Definition GEOCODING_API_URL : string :=
  "https://geocoding-api.open-meteo.com/v1/search".
Definition WEATHER_API_URL : string :=
  "https://api.open-meteo.com/v1/forecast".

(** What [response.raise_for_status(); response.json()] makes of the
    outcome of [requests.get]: the parsed body, or the
    [RequestException] that one of the three calls raises, or an
    exception that is none and so passes the [except] clause.
    [raise_for_status] raises [HTTPError] for a status from 400 to 599,
    [json] raises [requests.exceptions.JSONDecodeError], which is a
    [RequestException] too, for a body that does not parse. *)
Definition response_json (o : http_outcome)
  : result (request_exception + pyval) :=
  match o with
  | Failed detail => Ok (inl (ConnectionError detail))
  | Responded status body =>
      if (400 <=? status) && (status <? 600)
      then Ok (inl (HTTPError status))
      else match body with
           | inr data => Ok (inr data)
           | inl detail => Ok (inl (JSONDecodeError detail))
           end
  | Crashed e => Raise e
  end.

(** The three calls of both [try] blocks, with the exception that the
    [except] clause catches, if any, on the left. *)
Definition get_json (w : world) (url : string)
    (params : list (string * pyval)) : ui (request_exception + pyval) :=
  emit (HttpGet url params);;
  lift (response_json (http w url params)).

Definition geocoding_params (city_name : string) : list (string * pyval) :=
  [("name", PStr city_name); ("count", PInt 1)].

(** app.py, lines 31-45: the function under its decorator *)
Definition get_coordinates (w : world) (city_name : string)
  : ui (pyval * pyval * pyval) :=
  let params := geocoding_params city_name in
  r ← get_json w GEOCODING_API_URL params;
  match r with
  | inr data =>
      found ← lift (has ← py_contains "results" data;
                    if has : bool then
                      results ← py_getitem data "results";
                      n ← py_len results;
                      Ok (0 <? n)
                    else Ok false);
      if found : bool then
        lift (results ← py_getitem data "results";
              location ← py_first results;
              latitude ← py_getitem location "latitude";
              longitude ← py_getitem location "longitude";
              country ← py_get location "country" (PStr "");
              Ok (latitude, longitude, country))
      else mret (PNone, PNone, PNone)
  | inl e =>
      emit (StError ("Error during geocoding: " +:+ exception_text e));;
      mret (PNone, PNone, PNone)
  end.

(** The query parameters that [fetch_weather_data] builds (app.py,
    lines 50-64). *)
Definition weather_params (today : Datetime.datetime)
    (latitude longitude : pyval) (is_historical : bool)
  : result (list (string * pyval)) :=
  let params := [("latitude", latitude); ("longitude", longitude)] in
  if is_historical then
    week ← Datetime.timedelta_days 7;
    start ← Datetime.datetime_sub today week;
    let params :=
      dict_set "start_date" (PStr (Datetime.strftime_ymd start)) params in
    one ← Datetime.timedelta_days 1;
    stop ← Datetime.datetime_sub today one;
    let params :=
      dict_set "end_date" (PStr (Datetime.strftime_ymd stop)) params in
    Ok (dict_set "daily"
          (PStr "temperature_2m_max,temperature_2m_min,weather_code") params)
  else
    let params :=
      dict_set "current"
        (PStr "temperature_2m,weather_code,precipitation_probability,wind_speed_10m")
        params in
    let params :=
      dict_set "hourly"
        (PStr "temperature_2m,precipitation_probability,wind_speed_10m")
        params in
    Ok (dict_set "forecast_days" (PInt 1) params).

(** app.py, lines 48-72: the function under its decorator *)
Definition fetch_weather_data (w : world) (latitude longitude : pyval)
    (is_historical : bool) : ui pyval :=
  let today := utcnow w in
  params ← lift (weather_params today latitude longitude is_historical);
  r ← get_json w WEATHER_API_URL params;
  match r with
  | inr data => mret data
  | inl e =>
      emit (StError ("Error fetching weather data: " +:+ exception_text e));;
      mret PNone
  end.

(** *** The three views (app.py, lines 91-144) *)

(** Current conditions *)
Definition tab1 (forecast_data : pyval) : ui unit :=
  if truthy forecast_data then
    current_weather ← lift (py_get forecast_data "current" (PDict []));
    current_temp ← lift (py_get current_weather "temperature_2m" PNone);
    current_weather_code ← lift (py_get current_weather "weather_code" PNone);
    weather_icon ← lift (get_weather_icon current_weather_code);
    precip_prob ←
      lift (py_get current_weather "precipitation_probability" PNone);
    wind_speed ← lift (py_get current_weather "wind_speed_10m" PNone);
    if negb (is_none current_temp) then
      emit (StColumns 3);;
      emit (StMetric 1 ("Temperature " +:+ weather_icon)
              (py_str current_temp +:+ "°C"));;
      emit (StMetric 2 "Wind Speed 💨" (py_str wind_speed +:+ " km/h"));;
      emit (StMetric 3 "Precipitation Chance 💧" (py_str precip_prob +:+ "%"))
    else emit (StWarning "Could not retrieve current conditions.")
  else emit (StWarning "Could not retrieve forecast data.").

(** [block and 'time' in block] *)
Definition has_time_axis (block : pyval) : result bool :=
  if truthy block then py_contains "time" block else Ok false.

(** Hourly forecast *)
Definition tab2 (forecast_data : pyval) : ui unit :=
  if truthy forecast_data then
    hourly_data ← lift (py_get forecast_data "hourly" (PDict []));
    ok ← lift (has_time_axis hourly_data);
    if ok : bool then
      emit (StSubheader "Forecast for the Next 24 Hours");;
      hourly_df ← lift (time_indexed_frame hourly_data);
      emit (StLineChart hourly_df);;
      within (InExpander "View Hourly Data Table")
        (emit (StDataframe hourly_df))
    else emit (StWarning "Could not retrieve hourly forecast data.")
  else emit (StWarning "Could not retrieve forecast data.").

(** Historical data *)
Definition tab3 (historical_data : pyval) : ui unit :=
  if truthy historical_data then
    daily_data ← lift (py_get historical_data "daily" (PDict []));
    ok ← lift (has_time_axis daily_data);
    if ok : bool then
      emit (StSubheader "Weather for the Last 7 Days");;
      historical_df ← lift (time_indexed_frame daily_data);
      temp_df ←
        lift (select_columns historical_df
                ["temperature_2m_max"; "temperature_2m_min"]);
      let temp_df :=
        rename_columns temp_df
          [("temperature_2m_max", "Max Temp (°C)");
           ("temperature_2m_min", "Min Temp (°C)")] in
      emit (StBarChart temp_df);;
      within (InExpander "View Historical Data Table")
        (emit (StDataframe historical_df))
    else emit (StWarning "Could not retrieve historical data.")
  else emit (StWarning "Could not retrieve historical data.").

(** *** The page (app.py, lines 7 and 75-147); [city] is what the text
    input returns.  The two functions are called as their bodies: a
    run in which no call is answered from the cache of
    [st.cache_data], for which see [cached_main] below. *)
Definition main (w : world) (city : string) : ui unit :=
  emit (StPageConfig "wide" "Live Weather Dashboard");;
  emit (StTitle "Live Weather Forecast");;
  emit (StTextInput "Enter a city name:" "Lviv");;
  if truthy (PStr city) then
    '(lat, lon, country) ← get_coordinates w city;
    if negb (is_none lat) && negb (is_none lon) then
      emit (StSubheader
              ("Weather for " +:+ str_title city +:+ ", " +:+ py_str country));;
      forecast_data ← fetch_weather_data w lat lon false;
      historical_data ← fetch_weather_data w lat lon true;
      emit (StTabs ["Current Conditions"; "Hourly Forecast";
                    "Historical Data"]);;
      within (InTab 1) (tab1 forecast_data);;
      within (InTab 2) (tab2 forecast_data);;
      within (InTab 3) (tab3 historical_data)
    else
      emit (StError
              ("Could not find coordinates for '" +:+ city
               +:+ "'. Please check the spelling or try a different city."))
  else mret tt.

(** *** Reading a run *)

Fixpoint is_weather_request (e : event) : bool :=
  match e with
  | HttpGet url _ => String.eqb url WEATHER_API_URL
  | InTab _ e' | InExpander _ e' => is_weather_request e'
  | _ => false
  end.

Fixpoint is_warning (e : event) : bool :=
  match e with
  | StWarning _ => true
  | InTab _ e' | InExpander _ e' => is_warning e'
  | _ => false
  end.

(** The resolver's "not found" result, as the script represents it:
    the triple that makes the page skip the weather requests. *)
Definition NotFound : pyval * pyval * pyval := (PNone, PNone, PNone).

End App.

(** ** The words of the specification *)

(** A value Python can hash, that is, can look up in a dict. *)
Definition hashable (v : pyval) : bool :=
  match v with
  | PList _ | PDict _ => false
  | _ => true
  end.

(** Dates as the specification speaks of them: a day of the calendar,
    the day before it, and the text YYYY-MM-DD. *)
Module Calendar.
Import Datetime.

Definition date : Type := (Z * Z * Z)%type.

Definition calendar_date (dt : date) : Prop :=
  let '(y, m, d) := dt in
  1 <= y /\ 1 <= m <= 12 /\ 1 <= d <= days_in_month y m.

Definition yesterday (dt : date) : date :=
  let '(y, m, d) := dt in
  if 1 <? d then (y, m, d - 1)
  else if 1 <? m then (y, m - 1, days_in_month y (m - 1))
  else (y - 1, 12, 31).

(** The date [n] days before [dt] *)
Definition days_before (n : nat) (dt : date) : date :=
  Nat.iter n yesterday dt.

Definition ordinal (dt : date) : Z :=
  let '(y, m, d) := dt in ymd2ord y m d.

Definition date_of (t : datetime) : date := (year t, month t, day t).

(** The moment [t] moved to the day [dt], time of day unchanged *)
Definition on_date (dt : date) (t : datetime) : datetime :=
  let '(y, m, d) := dt in
  {| year := y; month := m; day := d;
     hour := hour t; minute := minute t; second := second t;
     microsecond := microsecond t |}.

Definition is_digit (c : ascii) : bool :=
  let n := nat_of_ascii c in (48 <=? n)%nat && (n <=? 57)%nat.

Fixpoint all_digits (s : string) : bool :=
  match s with
  | EmptyString => true
  | String c s' => is_digit c && all_digits s'
  end.

(** Reads a text of the form YYYY-MM-DD: four digits, a dash, two
    digits, a dash, two digits, and nothing else. *)
Definition read_iso_date (s : string) : option date :=
  let y := substring 0 4 s in
  let m := substring 5 2 s in
  let d := substring 8 2 s in
  if (String.length s =? 10)%nat
     && all_digits y && all_digits m && all_digits d
     && String.eqb (substring 4 1 s) "-" && String.eqb (substring 7 1 s) "-"
  then Some (digits_value y, digits_value m, digits_value d)
  else None.

End Calendar.

(** ** Auxiliary definitions of the proofs *)

(** The last part of [ord2ymd]: month and day from the day of the year *)
Definition month_day (leapyear : bool) (n : Z) : Z * Z :=
  let m := Z.shiftr (n + 50) 5 in
  let preceding :=
    Datetime.table_at Datetime.DAYS_BEFORE_MONTH m
    + (if (2 <? m) && leapyear then 1 else 0) in
  if n <? preceding then
    let m := m - 1 in
    let preceding :=
      preceding
      - (Datetime.table_at Datetime.DAYS_IN_MONTH m
         + (if (m =? 2) && leapyear then 1 else 0)) in
    (m, n - preceding + 1)
  else (m, n - preceding + 1).

Definition days_in_month_of (leap : bool) (m : Z) : Z :=
  if (m =? 2) && leap then 29 else Datetime.table_at Datetime.DAYS_IN_MONTH m.

Definition days_before_month_of (leap : bool) (m : Z) : Z :=
  Datetime.table_at Datetime.DAYS_BEFORE_MONTH m
  + (if (2 <? m) && leap then 1 else 0).

(** The integers [lo], ..., [lo + n - 1] *)
Definition Z_range (lo n : Z) : list Z :=
  (fun i => lo + Z.of_nat i) <$> seq 0 (Z.to_nat n).

Definition month_day_ok (leap : bool) (m d : Z) : bool :=
  let doy := days_before_month_of leap m + d - 1 in
  if days_in_month_of leap m <? d then true
  else
    (0 <=? doy) && (doy <? 365 + (if leap then 1 else 0)) &&
    (if doy =? 365 then (m =? 12) && (d =? 31)
     else let '(m', d') := month_day leap doy in (m' =? m) && (d' =? d)).

Definition year_ok (y : Z) : bool :=
  let s := int_str y in
  (String.length s =? 4)%nat && Calendar.all_digits s && (digits_value s =? y).

Definition pad_ok (width : nat) (z : Z) : bool :=
  let s := Datetime.pad width z in
  (String.length s =? width)%nat && Calendar.all_digits s
  && (digits_value s =? z).

(** ** Concrete runs

    A runtime, clocks and worlds on which the theorems below are
    instantiated. *)
(** Frames kept as the object they were built from, one entry per
    column: selecting looks each column up, renaming rewrites the keys. *)
Fixpoint plain_columns (d : list (string * pyval)) (columns : list string)
  : result (list (string * pyval)) :=
  match columns with
  | [] => Ok []
  | c :: columns' =>
      match dict_lookup c d with
      | Some v => rest ← plain_columns d columns'; Ok ((c, v) :: rest)
      | None => Raise (KeyError c)
      end
  end.

Definition plain_select (v : pyval) (columns : list string) : result pyval :=
  match v with
  | PDict d => d' ← plain_columns d columns; Ok (PDict d')
  | _ => Raise (TypeError "not a frame")
  end.

Definition plain_rename (v : pyval) (names : list (string * string)) : pyval :=
  match v with
  | PDict d =>
      PDict ((fun kv : string * pyval =>
                (default kv.1 (dict_lookup kv.1 names), kv.2)) <$> d)
  | _ => v
  end.

Definition plain_runtime : Runtime := {|
  str_repr s := "'" +:+ s +:+ "'";
  str_title s := s;
  exception_text e :=
    match e with
    | ConnectionError detail => detail
    | HTTPError status => int_str status +:+ " Error"
    | JSONDecodeError detail => detail
    end;
  frame := pyval;
  time_indexed_frame v := Ok v;
  select_columns v columns := plain_select v columns;
  rename_columns v names := plain_rename v names;
  strftime_short_year y := int_str y
|}.

Definition noon (y m d : Z) : Datetime.datetime :=
  {| Datetime.year := y; Datetime.month := m; Datetime.day := d;
     Datetime.hour := 12; Datetime.minute := 0; Datetime.second := 0;
     Datetime.microsecond := 0 |}.

(** A world in which every request has the same outcome *)
Definition constant_world (o : http_outcome) : world :=
  {| http := fun _ _ => o; utcnow := noon 2024 6 15 |}.

Definition lviv_result : list (string * pyval) :=
  [("latitude", PFloat (FFin false "4984" 2));
   ("longitude", PFloat (FFin false "2403" 2));
   ("country", PStr "Ukraine")].

Definition sample_current : list (string * pyval) :=
  [("temperature_2m", PFloat (FFin false "215" 2));
   ("weather_code", PInt 3);
   ("precipitation_probability", PInt 10);
   ("wind_speed_10m", PInt 12)].

Definition temperature_only : list (string * pyval) :=
  [("current", PDict [("temperature_2m", PFloat (FFin false "215" 2))])].

(** A current block with a temperature and a list for its weather code *)
Definition list_code_current : list (string * pyval) :=
  [("temperature_2m", PFloat (FFin false "215" 2));
   ("weather_code", PList [])].

Definition failing_world : world :=
  constant_world (Failed "connection refused").

Definition server_error_world : world :=
  constant_world (Responded 503 (inl "Service Unavailable")).

Definition empty_world : world :=
  constant_world (Responded 200 (inr (PDict [("results", PList [])]))).

Definition lviv_world : world :=
  constant_world
    (Responded 200 (inr (PDict [("results", PList [PDict lviv_result])]))).

(** ** Reading a run, continued *)

(** The codes that the icon table knows *)
Definition known_codes : list Z :=
  [0; 1; 2; 3; 45; 48; 51; 53; 55; 56; 57; 61; 63; 65; 66; 67;
   71; 73; 75; 77; 80; 81; 82; 85; 86; 95; 96; 99].

Section Reading.
Context `{RT : Runtime}.

Fixpoint request_of (e : event) : option (string * list (string * pyval)) :=
  match e with
  | HttpGet url params => Some (url, params)
  | InTab _ e' | InExpander _ e' => request_of e'
  | _ => None
  end.

(** The HTTP requests of a run, in order: endpoint and parameters *)
Definition requests (es : list event)
  : list (string * list (string * pyval)) :=
  omap request_of es.

(** An event rendered inside tab [i] *)
Definition in_tab (i : nat) (e : event) : bool :=
  match e with
  | InTab j _ => Nat.eqb i j
  | _ => false
  end.

(** The three [with tab:] blocks of the page, one after the other *)
Definition render_tabs (forecast_data historical_data : pyval) : ui unit :=
  within (InTab 1) (tab1 forecast_data);;
  within (InTab 2) (tab2 forecast_data);;
  within (InTab 3) (tab3 historical_data).

(** What the page shows before it looks at the city *)
Definition page_head : list event :=
  [StPageConfig "wide" "Live Weather Dashboard";
   StTitle "Live Weather Forecast";
   StTextInput "Enter a city name:" "Lviv"].

End Reading.

(** ** The cache of the two functions

    [st.cache_data(ttl=...)] (app.py, lines 30 and 47) keeps, for a
    function and the arguments of a call, the value that the call
    returned and the elements that it showed.  While the entry is
    younger than [ttl] seconds, a call with the same arguments is
    answered from it: the body does not run, so that nothing is
    requested, the stored elements are shown again and the stored
    value is returned.  A call that raises stores nothing. *)

Section Cache.
Context `{RT : Runtime}.

(** What the caches hold when a run starts: for a function, its [ttl]
    and the arguments that a call passes, the world in which the entry
    was made, if there is an entry and it has not expired. *)
Definition cache : Type :=
  string -> Z -> list (string * pyval) -> option world.

Definition empty_cache : cache := fun _ _ _ => None.

(** The elements that a run showed: its events without its requests *)
Definition elements (es : list event) : list event :=
  List.filter
    (fun e => match request_of e with Some _ => false | None => true end) es.

(** Whether a call is answered from the entry *)
Definition cache_hit {A} (stored : option world) (body : world -> ui A)
  : bool :=
  match stored with
  | Some past =>
      match outcome (body past) with
      | Ok _ => true
      | Raise _ => false
      end
  | None => false
  end.

(** The decorated function, given what the cache holds for the call.
    An entry is made by a call that returned; for a [past] in which the
    body raises there is none, and the body runs. *)
Definition cache_data {A} (stored : option world) (body : world -> ui A)
    (w : world) : ui A :=
  match stored with
  | Some past =>
      match outcome (body past) with
      | Ok value => (elements (trace (body past)), Ok value)
      | Raise _ => body w
      end
  | None => body w
  end.

(** app.py, line 30 *)
Definition coordinates_entry (c : cache) (city_name : string)
  : option world :=
  c "get_coordinates" 3600 [("city_name", PStr city_name)].

Definition cached_get_coordinates (c : cache) (w : world)
    (city_name : string) : ui (pyval * pyval * pyval) :=
  cache_data (coordinates_entry c city_name)
    (fun w => get_coordinates w city_name) w.

(** app.py, line 47; the page passes [is_historical] by keyword for
    the historical call and leaves it out for the current one (lines
    85 and 86). *)
Definition weather_entry (c : cache) (latitude longitude : pyval)
    (is_historical : bool) : option world :=
  c "fetch_weather_data" 600
    (if is_historical
     then [("latitude", latitude); ("longitude", longitude);
           ("is_historical", PBool true)]
     else [("latitude", latitude); ("longitude", longitude)]).

Definition cached_fetch_weather_data (c : cache) (w : world)
    (latitude longitude : pyval) (is_historical : bool) : ui pyval :=
  cache_data (weather_entry c latitude longitude is_historical)
    (fun w => fetch_weather_data w latitude longitude is_historical) w.

(** The page with the two functions as they are decorated *)
Definition cached_main (c : cache) (w : world) (city : string) : ui unit :=
  emit (StPageConfig "wide" "Live Weather Dashboard");;
  emit (StTitle "Live Weather Forecast");;
  emit (StTextInput "Enter a city name:" "Lviv");;
  if truthy (PStr city) then
    '(lat, lon, country) ← cached_get_coordinates c w city;
    if negb (is_none lat) && negb (is_none lon) then
      emit (StSubheader
              ("Weather for " +:+ str_title city +:+ ", " +:+ py_str country));;
      forecast_data ← cached_fetch_weather_data c w lat lon false;
      historical_data ← cached_fetch_weather_data c w lat lon true;
      emit (StTabs ["Current Conditions"; "Hourly Forecast";
                    "Historical Data"]);;
      within (InTab 1) (tab1 forecast_data);;
      within (InTab 2) (tab2 forecast_data);;
      within (InTab 3) (tab3 historical_data)
    else
      emit (StError
              ("Could not find coordinates for '" +:+ city
               +:+ "'. Please check the spelling or try a different city."))
  else mret tt.

(** Whether the resolver and the fetcher are answered from the cache *)
Definition coordinates_cached (c : cache) (city_name : string) : bool :=
  cache_hit (coordinates_entry c city_name)
    (fun w => get_coordinates w city_name).

Definition weather_cached (c : cache) (latitude longitude : pyval)
    (is_historical : bool) : bool :=
  cache_hit (weather_entry c latitude longitude is_historical)
    (fun w => fetch_weather_data w latitude longitude is_historical).

End Cache.

(** The date that a query parameter carries as YYYY-MM-DD *)
Definition param_date (params : list (string * pyval)) (key : string)
  : option Calendar.date :=
  match dict_lookup key params with
  | Some (PStr s) => Calendar.read_iso_date s
  | _ => None
  end.

(** ** More concrete runs *)

(** A world that answers the geocoding endpoint with one outcome and
    every other request with another *)
Definition routed_world (geocoding weather : http_outcome)
    (now : Datetime.datetime) : world :=
  {| http := fun url _ =>
       if String.eqb url GEOCODING_API_URL then geocoding else weather;
     utcnow := now |}.

Definition lviv_found : http_outcome :=
  Responded 200 (inr (PDict [("results", PList [PDict lviv_result])])).

(** The answer of the geocoding service to a name it does not know *)
Definition nothing_found : list (string * pyval) :=
  [("generationtime_ms", PFloat (FFin false "5" 0))].

Definition no_latitude : list (string * pyval) :=
  [("longitude", PFloat (FFin false "2403" 2)); ("country", PStr "Ukraine")].

Definition null_latitude : list (string * pyval) :=
  [("latitude", PNone); ("longitude", PFloat (FFin false "2403" 2))].


Definition null_current_world : world :=
  routed_world lviv_found (Responded 200 (inr (PDict [("current", PNone)])))
    (noon 2024 6 15).

Definition first_week_world : world :=
  {| http := fun _ _ => lviv_found; utcnow := noon 1 1 5 |}.

Definition late_evening (y m d : Z) : Datetime.datetime :=
  {| Datetime.year := y; Datetime.month := m; Datetime.day := d;
     Datetime.hour := 23; Datetime.minute := 59; Datetime.second := 59;
     Datetime.microsecond := 999999 |}.

Definition evening_world : world :=
  {| http := fun _ _ => lviv_found; utcnow := late_evening 2024 6 15 |}.

(** The world of Lviv half an hour after noon *)
Definition half_past_noon_world : world :=
  {| http := fun _ _ => lviv_found;
     utcnow :=
       {| Datetime.year := 2024; Datetime.month := 6; Datetime.day := 15;
          Datetime.hour := 12; Datetime.minute := 30; Datetime.second := 0;
          Datetime.microsecond := 0 |} |}.

(** What the caches hold in a rerun that comes more than ten minutes
    and less than an hour after the run in [past]: the resolver's
    entry, and none of the fetcher's. *)
Definition resolver_cache (past : world) : cache :=
  fun function _ _ =>
    if String.eqb function "get_coordinates" then Some past else None.

Definition hourly_block : list (string * pyval) :=
  [("time", PList [PStr "2024-06-15T00:00"; PStr "2024-06-15T01:00"]);
   ("temperature_2m", PList [PFloat (FFin false "215" 2);
                             PFloat (FFin false "209" 2)])].

Definition daily_block : list (string * pyval) :=
  [("time", PList [PStr "2024-06-08"; PStr "2024-06-09"]);
   ("temperature_2m_max", PList [PFloat (FFin false "251" 2); PInt 24]);
   ("temperature_2m_min", PList [PInt 14; PFloat (FFin false "135" 2)])].

(** * Properties *)

(** ** The embedding on known values *)

Example float_repr_values :
  float_repr (FFin false "215" 2) = "21.5"
  /\ float_repr (FFin false "4984" 2) = "49.84"
  /\ float_repr (FFin false "12" 2) = "12.0"
  /\ float_repr (FFin false "5" 0) = "0.5"
  /\ float_repr (FFin false "0" 1) = "0.0"
  /\ float_repr (FFin false "1" (-3)) = "0.0001"
  /\ float_repr (FFin true "1" (-4)) = "-1e-05"
  /\ float_repr (FFin false "1" 17) = "1e+16"
  /\ float_repr (FFin false "15" 23) = "1.5e+22".
Proof. repeat split. Qed.

Example py_repr_nested :
  py_repr (RT := plain_runtime)
    (PDict [("a", PList [PInt 1; PFloat (FFin false "5" 0); PNone]);
            ("b", PBool true)])
  = "{'a': [1, 0.5, None], 'b': True}".
Proof. reflexivity. Qed.

Example icon_keys_compare_as_numbers :
  get_weather_icon (PFloat (FFin false "3" 1)) = get_weather_icon (PInt 3)
  /\ get_weather_icon (PBool true) = get_weather_icon (PInt 1)
  /\ get_weather_icon (PStr "3") = Ok UNKNOWN_ICON.
Proof. repeat split. Qed.

Example ordinal_values :
  Datetime.ymd2ord 1 1 1 = 1
  /\ Datetime.ymd2ord 1970 1 1 = 719163
  /\ Datetime.ymd2ord 2024 6 15 = 739052
  /\ Datetime.ymd2ord 9999 12 31 = Datetime.MAXORDINAL
  /\ Datetime.ord2ymd 739052 = (2024, 6, 15)
  /\ Datetime.ord2ymd 730119 = (1999, 12, 31)
  /\ Datetime.ord2ymd 730120 = (2000, 1, 1).
Proof. repeat split. Qed.

Example yesterday_values :
  Calendar.yesterday (2024, 3, 1) = (2024, 2, 29)
  /\ Calendar.yesterday (2023, 3, 1) = (2023, 2, 28)
  /\ Calendar.yesterday (1900, 3, 1) = (1900, 2, 28)
  /\ Calendar.yesterday (2024, 1, 1) = (2023, 12, 31)
  /\ Calendar.days_before 7 (2024, 6, 15) = (2024, 6, 8)
  /\ Calendar.days_before 7 (2024, 3, 3) = (2024, 2, 25).
Proof. repeat split. Qed.

Example read_iso_date_values :
  Calendar.read_iso_date "2024-06-08" = Some (2024, 6, 8)
  /\ Calendar.read_iso_date "2024-6-8" = None
  /\ Calendar.read_iso_date "2024/06/08" = None.
Proof. repeat split. Qed.

(** A failed geocoding request, seen from the page: the two errors, and
    no request for the weather. *)
Example page_after_failed_geocoding :
  main (RT := plain_runtime) failing_world "Lviv"
  = ([StPageConfig "wide" "Live Weather Dashboard";
      StTitle "Live Weather Forecast";
      StTextInput "Enter a city name:" "Lviv";
      HttpGet GEOCODING_API_URL [("name", PStr "Lviv"); ("count", PInt 1)];
      StError "Error during geocoding: connection refused";
      StError "Could not find coordinates for 'Lviv'. Please check the spelling or try a different city."],
     Ok tt).
Proof. reflexivity. Qed.

(** ** The calendar arithmetic of [datetime] *)
Module DatetimeFacts.
Import Datetime Calendar.

Ltac divmod := Z.div_mod_to_equations; lia.

Lemma month_cases m :
  1 <= m <= 12 ->
  m = 1 \/ m = 2 \/ m = 3 \/ m = 4 \/ m = 5 \/ m = 6 \/
  m = 7 \/ m = 8 \/ m = 9 \/ m = 10 \/ m = 11 \/ m = 12.
Proof. lia. Qed.

Ltac each_month m Hm :=
  destruct (month_cases m Hm)
    as [->|[->|[->|[->|[->|[->|[->|[->|[->|[->|[->| ->]]]]]]]]]]].

Lemma Z_range_forallb (P : Z -> bool) lo n :
  forallb P (Z_range lo n) = true ->
  forall z, lo <= z < lo + n -> P z = true.
Proof.
  intros H z Hz. rewrite forallb_forall in H. apply H.
  unfold Z_range. apply in_map_iff.
  exists (Z.to_nat (z - lo)). split; [lia|]. apply in_seq. lia.
Qed.

(** *** From an ordinal to a date: the year *)

Lemma year_decomposition Y :
  0 <= Y ->
  exists a b c e,
    Y = 400 * a + 100 * b + 4 * c + e /\
    0 <= a /\ 0 <= b < 4 /\ 0 <= c < 25 /\ 0 <= e < 4 /\
    days_before_year (Y + 1)
    = 146097 * a + 36524 * b + 1461 * c + 365 * e /\
    is_leap (Y + 1) = (e =? 3) && (negb (c =? 24) || (b =? 3)).
Proof.
  intros HY.
  exists (Y / 400), (Y mod 400 / 100), (Y mod 100 / 4), (Y mod 4).
  unfold days_before_year, is_leap.
  replace (Y + 1 - 1) with Y by lia.
  repeat split; divmod.
Qed.

(** The four divisions of [ord2ymd] undo the sum of whole cycles of
    400, 100, 4 and 1 years, except on the last day of a leap year,
    where one of the quotients overshoots and the code returns
    December 31 directly. *)
Lemma ord2ymd_year a b c e doy :
  0 <= a -> 0 <= b < 4 -> 0 <= c < 25 -> 0 <= e < 4 ->
  let leap := (e =? 3) && (negb (c =? 24) || (b =? 3)) in
  let Y := 400 * a + 100 * b + 4 * c + e in
  0 <= doy < 365 + (if leap then 1 else 0) ->
  ord2ymd (146097 * a + 36524 * b + 1461 * c + 365 * e + doy + 1) =
  if doy =? 365 then (Y + 1, 12, 31)
  else let '(m, d) := month_day leap doy in (Y + 1, m, d).
Proof.
  intros Ha Hb Hc He leap Y Hdoy.
  unfold ord2ymd, DI400Y, DI100Y, DI4Y.
  set (N := 146097 * a + 36524 * b + 1461 * c + 365 * e + doy + 1 - 1).
  set (R1 := 36524 * b + 1461 * c + 365 * e + doy).
  set (R2 := 1461 * c + 365 * e + doy).
  set (R3 := 365 * e + doy).
  assert (doy <= 365) as Hle by (destruct leap; lia).
  assert (N / 146097 = a) as -> by (subst N; divmod).
  assert (N mod 146097 = R1) as -> by (subst N R1; divmod).
  destruct (Z.eqb_spec doy 365) as [Hd|Hd].
  - (* the last day of a leap year *)
    assert (leap = true) as Hl by (destruct leap; [reflexivity|lia]).
    assert (e = 3 /\ (c <> 24 \/ b = 3)) as [He3 Hcb]
      by (subst leap; lia).
    destruct (Z.eqb_spec c 24) as [Hc24|Hc24].
    + (* the year is a multiple of 400 *)
      assert (R1 / 36524 = 4) as -> by (subst R1; divmod).
      assert (R1 mod 36524 = 0) as -> by (subst R1; divmod).
      change (0 mod 1461) with 0. change (0 / 1461) with 0.
      change (0 / 365) with 0.
      rewrite orb_true_r. f_equal. f_equal. subst Y. lia.
    + assert (R1 / 36524 = b) as -> by (subst R1; divmod).
      assert (R1 mod 36524 = R2) as -> by (subst R1 R2; divmod).
      assert (R2 / 1461 = c) as -> by (subst R2; divmod).
      assert (R2 mod 1461 = R3) as -> by (subst R2 R3; divmod).
      assert (R3 / 365 = 4) as -> by (subst R3; divmod).
      cbn [Z.eqb Pos.eqb orb]. f_equal. f_equal. subst Y. lia.
  - assert (doy < 365) as Hlt by (destruct leap; lia).
    assert (R1 / 36524 = b) as -> by (subst R1; divmod).
    assert (R1 mod 36524 = R2) as -> by (subst R1 R2; divmod).
    assert (R2 / 1461 = c) as -> by (subst R2; divmod).
    assert (R2 mod 1461 = R3) as -> by (subst R2 R3; divmod).
    assert (R3 / 365 = e) as -> by (subst R3; divmod).
    assert (R3 mod 365 = doy) as -> by (subst R3; divmod).
    replace ((e =? 4) || (b =? 4)) with false by lia.
    fold leap. unfold month_day.
    replace (a * 400 + 1 + (b * 100 + c * 4 + e)) with (Y + 1)
      by (subst Y; lia).
    destruct (doy <? _); reflexivity.
Qed.

(** *** From an ordinal to a date: month and day *)

Lemma month_day_table :
  forallb
    (fun leap =>
       forallb (fun m => forallb (month_day_ok leap m) (Z_range 1 31))
               (Z_range 1 12))
    [true; false] = true.
Proof. vm_compute. reflexivity. Qed.

Lemma days_in_month_of_le leap m :
  1 <= m <= 12 -> 28 <= days_in_month_of leap m <= 31.
Proof.
  intros Hm. unfold days_in_month_of.
  each_month m Hm; destruct leap; vm_compute; split; discriminate.
Qed.

Lemma month_day_inverse leap m d :
  1 <= m <= 12 -> 1 <= d <= days_in_month_of leap m ->
  let doy := days_before_month_of leap m + d - 1 in
  0 <= doy < 365 + (if leap then 1 else 0) /\
  (if doy =? 365 then m = 12 /\ d = 31 else month_day leap doy = (m, d)).
Proof.
  intros Hm Hd doy.
  pose proof (days_in_month_of_le leap m Hm) as Hd31.
  pose proof month_day_table as H. rewrite forallb_forall in H.
  assert (forallb (fun m => forallb (month_day_ok leap m) (Z_range 1 31))
                  (Z_range 1 12) = true) as H1
    by (apply H; destruct leap; simpl; auto).
  pose proof (Z_range_forallb _ _ _ H1 m ltac:(lia)) as H2.
  pose proof (Z_range_forallb _ _ _ H2 d ltac:(lia)) as H3.
  clear H H1 H2. unfold month_day_ok in H3. fold doy in H3.
  destruct (Z.ltb_spec (days_in_month_of leap m) d); [lia|].
  apply andb_true_iff in H3 as [H3 H4].
  split; [lia|]. destruct (doy =? 365); [lia|].
  destruct (month_day leap doy) as [m' d']. f_equal; lia.
Qed.

(** *** Round trip *)

Lemma ord2ymd_ymd2ord y m d :
  1 <= y -> 1 <= m <= 12 -> 1 <= d <= days_in_month y m ->
  ord2ymd (ymd2ord y m d) = (y, m, d).
Proof.
  intros Hy Hm Hd.
  destruct (year_decomposition (y - 1))
    as (a & b & c & e & HY & Ha & Hb & Hc & He & Hdby & Hleap); [lia|].
  replace (y - 1 + 1) with y in * by lia.
  destruct (month_day_inverse (is_leap y) m d Hm Hd) as [Hdoy Hmd].
  set (doy := days_before_month_of (is_leap y) m + d - 1) in *.
  assert (ymd2ord y m d
          = 146097 * a + 36524 * b + 1461 * c + 365 * e + doy + 1) as ->.
  { unfold ymd2ord. rewrite Hdby. subst doy.
    unfold days_before_month_of, days_before_month. lia. }
  rewrite Hleap in Hdoy, Hmd.
  rewrite ord2ymd_year by assumption.
  destruct (doy =? 365).
  - destruct Hmd as [-> ->]. f_equal. f_equal. lia.
  - rewrite Hmd. f_equal. f_equal. lia.
Qed.

Lemma ord2ymd_ordinal dt : calendar_date dt -> ord2ymd (ordinal dt) = dt.
Proof.
  destruct dt as [[y m] d]. intros (Hy & Hm & Hd).
  now apply ord2ymd_ymd2ord.
Qed.

(** *** Stepping back one day *)

Lemma days_in_month_bounds y m :
  1 <= m <= 12 -> 28 <= days_in_month y m <= 31.
Proof. intros Hm. apply (days_in_month_of_le (is_leap y) m Hm). Qed.

Lemma days_before_next_year y :
  days_before_year (y + 1)
  = days_before_year y + 365 + (if is_leap y then 1 else 0).
Proof.
  unfold days_before_year, is_leap.
  replace (y + 1 - 1) with (y - 1 + 1) by lia.
  destruct (_ && _) eqn:E; divmod.
Qed.

Lemma ordinal_yesterday dt :
  calendar_date dt -> ordinal (yesterday dt) = ordinal dt - 1.
Proof.
  destruct dt as [[y m] d]. intros (Hy & Hm & Hd). unfold yesterday, ordinal.
  destruct (Z.ltb_spec 1 d); [unfold ymd2ord; lia|].
  assert (d = 1) as -> by lia.
  destruct (Z.ltb_spec 1 m).
  - unfold ymd2ord, days_before_month, days_in_month.
    each_month m Hm; try lia;
      destruct (is_leap y); vm_compute table_at; simpl; lia.
  - assert (m = 1) as -> by lia.
    unfold ymd2ord. pose proof (days_before_next_year (y - 1)) as H1.
    replace (y - 1 + 1) with y in H1 by lia. rewrite H1.
    unfold days_before_month.
    destruct (is_leap (y - 1)); vm_compute table_at; simpl; lia.
Qed.

Lemma yesterday_calendar_date dt :
  calendar_date dt -> 1 < ordinal dt -> calendar_date (yesterday dt).
Proof.
  destruct dt as [[y m] d]. intros (Hy & Hm & Hd) Hord. unfold yesterday.
  destruct (Z.ltb_spec 1 d); [cbn; lia|].
  destruct (Z.ltb_spec 1 m).
  - cbn. pose proof (days_in_month_bounds y (m - 1)). lia.
  - assert (m = 1) as -> by lia. assert (d = 1) as -> by lia.
    assert (y <> 1) by (intros ->; vm_compute in Hord; discriminate).
    cbn. split; [lia|]. split; [lia|].
    unfold days_in_month. simpl. vm_compute table_at. lia.
Qed.

Lemma days_before_ordinal (k : nat) dt :
  calendar_date dt -> Z.of_nat k < ordinal dt ->
  calendar_date (days_before k dt) /\
  ordinal (days_before k dt) = ordinal dt - Z.of_nat k.
Proof.
  intros Hd. induction k as [|k IH]; intros Hk.
  - split; [exact Hd|]. cbn. lia.
  - destruct IH as [IH1 IH2]; [lia|].
    unfold days_before in *. rewrite Nat.iter_succ. split.
    + apply yesterday_calendar_date; [assumption|lia].
    + rewrite ordinal_yesterday by assumption. lia.
Qed.

Lemma ord2ymd_days_before (k : nat) dt :
  calendar_date dt -> Z.of_nat k < ordinal dt ->
  ord2ymd (ordinal dt - Z.of_nat k) = days_before k dt.
Proof.
  intros Hd Hk. destruct (days_before_ordinal k dt Hd Hk) as [H1 H2].
  rewrite <- H2. now apply ord2ymd_ordinal.
Qed.

Lemma ordinal_max y m d :
  1 <= y <= 9999 -> 1 <= m <= 12 -> 1 <= d <= days_in_month y m ->
  ymd2ord y m d <= MAXORDINAL.
Proof.
  intros Hy Hm Hd.
  destruct (month_day_inverse (is_leap y) m d Hm Hd) as [Hdoy _].
  unfold ymd2ord. pose proof (days_before_next_year y) as Hn.
  assert (days_before_year (y + 1) <= MAXORDINAL)
    by (unfold days_before_year, MAXORDINAL; divmod).
  unfold days_before_month_of, days_before_month in *. lia.
Qed.

Lemma valid_calendar_date t : valid t -> calendar_date (date_of t).
Proof. intros [(Hy & Hm & Hd) _]. unfold date_of, calendar_date. lia. Qed.

(** *** [t - timedelta(days=k)] is the same time of day, [k] days
    earlier. *)
Lemma datetime_sub_days t (k : nat) :
  valid t -> Z.of_nat k < toordinal t ->
  (td ← timedelta_days (Z.of_nat k); datetime_sub t td)
  = Ok (on_date (days_before k (date_of t)) t).
Proof.
  intros Hv Hk. pose proof Hv as [(Hy & Hm & Hd) (Hh & Hmi & Hs & Hus)].
  pose proof (ordinal_max _ _ _ Hy Hm Hd) as Hmax.
  fold (toordinal t) in Hmax. unfold MAXORDINAL in Hmax.
  unfold timedelta_days, timedelta_new.
  change (0 / 1000000) with 0. change (0 mod 1000000) with 0.
  change ((0 + 0) / 86400) with 0. change ((0 + 0) mod 86400) with 0.
  rewrite Z.add_0_r.
  destruct (Z.ltb_spec 999999999 (Z.abs (Z.of_nat k))); [lia|].
  cbn [mbind result_bind].
  unfold datetime_sub, timedelta_neg, timedelta_new.
  cbn [days seconds microseconds]. change (- 0) with 0.
  change (0 / 1000000) with 0. change (0 mod 1000000) with 0.
  change ((0 + 0) / 86400) with 0. change ((0 + 0) mod 86400) with 0.
  rewrite Z.add_0_r.
  destruct (Z.ltb_spec 999999999 (Z.abs (- Z.of_nat k))); [lia|].
  cbn [mbind result_bind].
  unfold datetime_add, timedelta_new.
  set (secs := hour t * 3600 + minute t * 60 + second t).
  assert (0 <= secs < 86400) as Hsecs by (subst secs; lia).
  assert (microsecond t / 1000000 = 0) as -> by divmod.
  assert (microsecond t mod 1000000 = microsecond t) as -> by divmod.
  rewrite Z.add_0_r.
  assert (secs / 86400 = 0) as -> by divmod.
  assert (secs mod 86400 = secs) as -> by divmod.
  rewrite Z.add_0_r.
  destruct (Z.ltb_spec 999999999 (Z.abs (toordinal t))); [lia|].
  cbn [mbind result_bind].
  unfold timedelta_add, timedelta_new. cbn [days seconds microseconds].
  rewrite !Z.add_0_r.
  assert (microsecond t / 1000000 = 0) as -> by divmod.
  assert (microsecond t mod 1000000 = microsecond t) as -> by divmod.
  rewrite Z.add_0_r.
  assert (secs / 86400 = 0) as -> by divmod.
  assert (secs mod 86400 = secs) as -> by divmod.
  rewrite Z.add_0_r.
  destruct (Z.ltb_spec 999999999 (Z.abs (toordinal t + - Z.of_nat k)));
    [lia|].
  cbn [mbind result_bind days seconds microseconds].
  destruct (Z.ltb_spec 0 (toordinal t + - Z.of_nat k)); [|lia].
  destruct (Z.leb_spec (toordinal t + - Z.of_nat k) MAXORDINAL);
    [|unfold MAXORDINAL in *; lia].
  cbn [andb].
  change (toordinal t + - Z.of_nat k)
    with (ordinal (date_of t) - Z.of_nat k).
  rewrite ord2ymd_days_before; [|now apply valid_calendar_date|exact Hk].
  destruct (days_before k (date_of t)) as [[y m] d]. cbn [on_date].
  assert (secs / 3600 = hour t) as -> by (subst secs; divmod).
  assert (secs mod 3600 / 60 = minute t) as -> by (subst secs; divmod).
  assert (secs mod 3600 mod 60 = second t) as -> by (subst secs; divmod).
  reflexivity.
Qed.

(** *** [strftime('%Y-%m-%d')] writes a date that reads back *)

Lemma year_table : forallb year_ok (Z_range 1000 9000) = true.
Proof. vm_compute. reflexivity. Qed.

Lemma pad2_table : forallb (pad_ok 2) (Z_range 0 100) = true.
Proof. vm_compute. reflexivity. Qed.

Lemma strftime_Y_four_digits `{RT : Runtime} y :
  1000 <= y -> strftime_Y y = int_str y.
Proof.
  intros Hy. unfold strftime_Y. destruct (Z.leb_spec 1000 y); [reflexivity|lia].
Qed.

Lemma read_iso_strftime `{RT : Runtime} t :
  1000 <= year t <= 9999 -> 0 <= month t <= 99 -> 0 <= day t <= 99 ->
  read_iso_date (strftime_ymd t) = Some (date_of t).
Proof.
  intros Hy Hm Hd. unfold strftime_ymd, date_of.
  rewrite strftime_Y_four_digits by lia.
  pose proof (Z_range_forallb _ _ _ year_table (year t) ltac:(lia)) as H4.
  pose proof (Z_range_forallb _ _ _ pad2_table (month t) ltac:(lia)) as H2.
  pose proof (Z_range_forallb _ _ _ pad2_table (day t) ltac:(lia)) as H2'.
  unfold pad_ok, year_ok in *.
  destruct (int_str (year t)) as [|a1 [|a2 [|a3 [|a4 [|? ?]]]]];
    try discriminate.
  destruct (pad 2 (month t)) as [|b1 [|b2 [|? ?]]]; try discriminate.
  destruct (pad 2 (day t)) as [|c1 [|c2 [|? ?]]]; try discriminate.
  apply andb_true_iff in H4 as [H4 H4v].
  apply andb_true_iff in H4 as [_ H4].
  apply andb_true_iff in H2 as [H2 H2v].
  apply andb_true_iff in H2 as [_ H2].
  apply andb_true_iff in H2' as [H2' H2v'].
  apply andb_true_iff in H2' as [_ H2'].
  apply Z.eqb_eq in H4v, H2v, H2v'.
  unfold read_iso_date.
  cbv -[all_digits digits_value date_of year month day].
  rewrite H4, H2, H2'. cbv iota. rewrite H4v, H2v, H2v'. reflexivity.
Qed.

(** A date after the last day of the year 999 has a year of four
    digits. *)
Lemma ordinal_year_1000 dt :
  calendar_date dt -> ymd2ord 1000 1 1 <= ordinal dt ->
  let '(y, _, _) := dt in 1000 <= y.
Proof.
  destruct dt as [[y m] d]. intros (Hy & Hm & Hd) Hord.
  destruct (Z.le_gt_cases 1000 y) as [|Hsmall]; [assumption|exfalso].
  pose proof (month_day_inverse (is_leap y) m d Hm Hd) as [Hdoy _].
  pose proof (days_before_next_year y) as Hn.
  assert (days_before_year (y + 1) < ymd2ord 1000 1 1)
    by (change (ymd2ord 1000 1 1) with 364878;
        unfold days_before_year; divmod).
  unfold ordinal, ymd2ord, days_before_month_of, days_before_month in *. lia.
Qed.

Lemma on_date_date_of dt t : date_of (on_date dt t) = dt.
Proof. destruct dt as [[y m] d]. reflexivity. Qed.

Lemma calendar_date_year dt :
  calendar_date dt -> ordinal dt <= MAXORDINAL ->
  let '(y, m, d) := dt in 1 <= y <= 9999 /\ 1 <= m <= 12 /\ 1 <= d <= 31.
Proof.
  destruct dt as [[y m] d]. intros (Hy & Hm & Hd) Hmax.
  pose proof (days_in_month_bounds y m Hm).
  split; [|lia]. split; [lia|].
  destruct (Z.le_gt_cases y 9999) as [|Hbig]; [assumption|exfalso].
  assert (1 <= ymd2ord y m d - days_before_year y).
  { pose proof (month_day_inverse (is_leap y) m d Hm Hd) as [Hdoy _].
    unfold ymd2ord, days_before_month_of, days_before_month in *. lia. }
  unfold ordinal, MAXORDINAL in Hmax.
  assert (3652059 <= days_before_year y)
    by (unfold days_before_year; divmod).
  lia.
Qed.

End DatetimeFacts.

(** ** The icon table *)

Lemma get_weather_icon_int z :
  get_weather_icon (PInt z) = Ok (default UNKNOWN_ICON (WEATHER_ICONS !! z)).
Proof. reflexivity. Qed.

Lemma icons_nonempty :
  map_Forall (fun _ g => (0 < String.length g)%nat) WEATHER_ICONS.
Proof.
  unfold WEATHER_ICONS. apply map_Forall_to_list. vm_compute.
  repeat constructor.
Qed.

Lemma icon_nonempty (key : option Z) :
  (0 < String.length (default UNKNOWN_ICON (key ≫= (WEATHER_ICONS !!.))))%nat.
Proof.
  destruct key as [z|]; cbn [mbind option_bind default].
  - destruct (WEATHER_ICONS !! z) as [g|] eqn:E; cbn [default].
    + exact (icons_nonempty z g E).
    + vm_compute. lia.
  - vm_compute. lia.
Qed.

Lemma icons_negative p : WEATHER_ICONS !! Z.neg p = None.
Proof.
  unfold WEATHER_ICONS. apply not_elem_of_list_to_map_1.
  cbn [fmap list_fmap fst]. rewrite !elem_of_cons, elem_of_nil.
  intros H. repeat destruct H as [H|H]; try discriminate H. exact H.
Qed.

Lemma get_weather_icon_hashable k :
  hashable k = true ->
  exists glyph, get_weather_icon k = Ok glyph /\ (0 < String.length glyph)%nat.
Proof.
  intros H. unfold get_weather_icon.
  destruct k; try discriminate H; cbn [int_key mbind result_bind];
    eexists; (split; [reflexivity|apply icon_nonempty]).
Qed.

(** ** The script *)
Section AppFacts.
Context `{RT : Runtime}.
Import Datetime Calendar DatetimeFacts.

(** *** The resolver *)

(** The three ways in which a request fails *)
Lemma response_json_failure o e :
  response_json o = Ok (inl e) <->
  (exists detail, o = Failed detail /\ e = ConnectionError detail)
  \/ (exists status body,
        o = Responded status body /\ 400 <= status < 600
        /\ e = HTTPError status)
  \/ (exists status detail,
        o = Responded status (inl detail) /\ ~ 400 <= status < 600
        /\ e = JSONDecodeError detail).
Proof.
  unfold response_json. split.
  - destruct o as [detail|status body|crash].
    + intros [= <-]. left. eauto.
    + destruct (Z.leb_spec 400 status), (Z.ltb_spec status 600); cbn [andb];
        try (intros [= <-]; right; left; exists status, body;
             repeat split; lia);
        destruct body as [detail|data]; try discriminate;
        intros [= <-]; right; right; exists status, detail;
        (split; [reflexivity|split; [lia|reflexivity]]).
    + discriminate.
  - intros [(detail & -> & ->)|[(status & body & -> & Hs & ->)
            |(status & detail & -> & Hs & ->)]].
    + reflexivity.
    + destruct (Z.leb_spec 400 status), (Z.ltb_spec status 600);
        try lia; reflexivity.
    + destruct (Z.leb_spec 400 status), (Z.ltb_spec status 600);
        try lia; reflexivity.
Qed.

Lemma get_coordinates_failure w city e :
  response_json (http w GEOCODING_API_URL (geocoding_params city))
  = Ok (inl e) ->
  get_coordinates w city
  = ([HttpGet GEOCODING_API_URL (geocoding_params city);
      StError ("Error during geocoding: " +:+ exception_text e)],
     Ok (PNone, PNone, PNone)).
Proof.
  intros H. unfold get_coordinates, get_json. cbn. rewrite H. reflexivity.
Qed.

Lemma get_coordinates_no_results w city d :
  response_json (http w GEOCODING_API_URL (geocoding_params city))
  = Ok (inr (PDict d)) ->
  dict_lookup "results" d = Some (PList []) ->
  get_coordinates w city
  = ([HttpGet GEOCODING_API_URL (geocoding_params city)],
     Ok (PNone, PNone, PNone)).
Proof.
  intros H Hr. unfold get_coordinates, get_json. cbn. rewrite H.
  cbn. rewrite Hr. reflexivity.
Qed.

Lemma get_coordinates_first_result w city d loc rest latitude longitude :
  response_json (http w GEOCODING_API_URL (geocoding_params city))
  = Ok (inr (PDict d)) ->
  dict_lookup "results" d = Some (PList (PDict loc :: rest)) ->
  dict_lookup "latitude" loc = Some latitude ->
  dict_lookup "longitude" loc = Some longitude ->
  get_coordinates w city
  = ([HttpGet GEOCODING_API_URL (geocoding_params city)],
     Ok (latitude, longitude, default (PStr "") (dict_lookup "country" loc))).
Proof.
  intros H Hr Hlat Hlon. unfold get_coordinates, get_json. cbn. rewrite H.
  cbn. rewrite Hr. cbn. rewrite Hlat, Hlon. reflexivity.
Qed.

(** *** The fetcher *)

Lemma fetch_weather_data_run w latitude longitude h params :
  weather_params (utcnow w) latitude longitude h = Ok params ->
  fetch_weather_data w latitude longitude h
  = match response_json (http w WEATHER_API_URL params) with
    | Ok (inr data) => ([HttpGet WEATHER_API_URL params], Ok data)
    | Ok (inl e) =>
        ([HttpGet WEATHER_API_URL params;
          StError ("Error fetching weather data: " +:+ exception_text e)],
         Ok PNone)
    | Raise e => ([HttpGet WEATHER_API_URL params], Raise e)
    end.
Proof.
  intros H. unfold fetch_weather_data, get_json. rewrite H. cbn.
  destruct (response_json _) as [[e|data]|e]; reflexivity.
Qed.

Lemma current_params today latitude longitude :
  weather_params today latitude longitude false
  = Ok [("latitude", latitude); ("longitude", longitude);
        ("current",
         PStr "temperature_2m,weather_code,precipitation_probability,wind_speed_10m");
        ("hourly",
         PStr "temperature_2m,precipitation_probability,wind_speed_10m");
        ("forecast_days", PInt 1)].
Proof. reflexivity. Qed.

Lemma datetime_sub_days_ok t (k : nat) :
  valid t -> Z.of_nat k < toordinal t ->
  exists td, timedelta_days (Z.of_nat k) = Ok td /\
             datetime_sub t td = Ok (on_date (days_before k (date_of t)) t).
Proof.
  intros Hv Hk. pose proof (datetime_sub_days t k Hv Hk) as H.
  destruct (timedelta_days (Z.of_nat k)) as [td|]; [|discriminate H].
  exists td. split; [reflexivity|exact H].
Qed.

Lemma historical_params today latitude longitude :
  valid today -> 7 < toordinal today ->
  weather_params today latitude longitude true
  = Ok [("latitude", latitude); ("longitude", longitude);
        ("start_date",
         PStr (strftime_ymd (on_date (days_before 7 (date_of today)) today)));
        ("end_date",
         PStr (strftime_ymd (on_date (days_before 1 (date_of today)) today)));
        ("daily",
         PStr "temperature_2m_max,temperature_2m_min,weather_code")].
Proof.
  intros Hv Hord. unfold weather_params.
  destruct (datetime_sub_days_ok today 7 Hv ltac:(lia)) as (w7 & Hw7 & Hs7).
  destruct (datetime_sub_days_ok today 1 Hv ltac:(lia)) as (w1 & Hw1 & Hs1).
  change (Z.of_nat 7) with 7 in Hw7. change (Z.of_nat 1) with 1 in Hw1.
  rewrite Hw7. cbn [mbind result_bind]. rewrite Hs7.
  cbn [mbind result_bind]. rewrite Hw1. cbn [mbind result_bind].
  rewrite Hs1. reflexivity.
Qed.

Lemma strftime_days_before t (k : nat) :
  valid t -> ymd2ord 1000 1 1 + Z.of_nat k <= toordinal t ->
  read_iso_date (strftime_ymd (on_date (days_before k (date_of t)) t))
  = Some (days_before k (date_of t)).
Proof.
  intros Hv Hk1000. pose proof (valid_calendar_date t Hv) as Hc.
  assert (Z.of_nat k < toordinal t) as Hk
    by (change (ymd2ord 1000 1 1) with 364878 in Hk1000; lia).
  destruct (days_before_ordinal k (date_of t) Hc Hk) as [Hc' Ho].
  assert (ymd2ord 1000 1 1 <= ordinal (days_before k (date_of t))) as H1000
    by (rewrite Ho; unfold ordinal, date_of; unfold toordinal in Hk1000; lia).
  pose proof (ordinal_year_1000 _ Hc' H1000) as Hy1000.
  assert (ordinal (days_before k (date_of t)) <= MAXORDINAL) as Hmax.
  { destruct Hv as [(Hy & Hm & Hd) _].
    pose proof (ordinal_max _ _ _ Hy Hm Hd). unfold ordinal, date_of in *. lia. }
  pose proof (calendar_date_year _ Hc' Hmax) as Hb.
  rewrite <- (on_date_date_of (days_before k (date_of t)) t) at 2.
  destruct (days_before k (date_of t)) as [[y m] d].
  apply read_iso_strftime; cbn [on_date year month day]; lia.
Qed.

(** *** The current view *)

Lemma py_str_default (o : option pyval) :
  py_str (default PNone o)
  = match o with Some v => py_str v | None => "None" end.
Proof. destruct o; reflexivity. Qed.

Lemma tab1_with_temperature payload current temperature icon :
  dict_lookup "current" payload = Some (PDict current) ->
  dict_lookup "temperature_2m" current = Some temperature ->
  temperature <> PNone ->
  get_weather_icon (default PNone (dict_lookup "weather_code" current))
  = Ok icon ->
  tab1 (PDict payload)
  = ([StColumns 3;
      StMetric 1 ("Temperature " +:+ icon) (py_str temperature +:+ "°C");
      StMetric 2 "Wind Speed 💨"
        (py_str (default PNone (dict_lookup "wind_speed_10m" current))
         +:+ " km/h");
      StMetric 3 "Precipitation Chance 💧"
        (py_str (default PNone
                   (dict_lookup "precipitation_probability" current))
         +:+ "%")],
     Ok tt).
Proof.
  intros Hcur Htemp Hnone Hicon. unfold tab1.
  assert (truthy (PDict payload) = true) as ->
    by (destruct payload; [discriminate Hcur|reflexivity]).
  cbn -[get_weather_icon py_str]. rewrite Hcur.
  cbn -[get_weather_icon py_str]. rewrite Htemp.
  cbn -[get_weather_icon py_str].
  change (from_option id PNone (dict_lookup "weather_code" current))
    with (default PNone (dict_lookup "weather_code" current)).
  rewrite Hicon. cbn -[get_weather_icon py_str].
  assert (is_none temperature = false) as ->
    by (destruct temperature; try reflexivity; congruence).
  reflexivity.
Qed.

Lemma tab1_of_current_block payload current :
  dict_lookup "current" payload = Some (PDict current) ->
  tab1 (PDict payload)
  = match get_weather_icon
            (default PNone (dict_lookup "weather_code" current)) with
    | Ok icon =>
        (if is_none (default PNone (dict_lookup "temperature_2m" current))
         then [StWarning "Could not retrieve current conditions."]
         else [StColumns 3;
               StMetric 1 ("Temperature " +:+ icon)
                 (py_str (default PNone
                            (dict_lookup "temperature_2m" current))
                  +:+ "°C");
               StMetric 2 "Wind Speed 💨"
                 (py_str (default PNone (dict_lookup "wind_speed_10m" current))
                  +:+ " km/h");
               StMetric 3 "Precipitation Chance 💧"
                 (py_str (default PNone
                            (dict_lookup "precipitation_probability" current))
                  +:+ "%")],
         Ok tt)
    | Raise e => ([], Raise e)
    end.
Proof.
  intros Hcur. unfold tab1.
  assert (truthy (PDict payload) = true) as ->
    by (destruct payload; [discriminate Hcur|reflexivity]).
  cbn -[get_weather_icon py_str]. rewrite Hcur.
  cbn -[get_weather_icon py_str].
  change (from_option id PNone (dict_lookup "weather_code" current))
    with (default PNone (dict_lookup "weather_code" current)).
  destruct (get_weather_icon _) as [icon|e]; [|reflexivity].
  cbn -[get_weather_icon py_str].
  change (from_option id PNone) with (default PNone).
  destruct (is_none (default PNone (dict_lookup "temperature_2m" current)));
    reflexivity.
Qed.

Lemma get_weather_icon_unhashable k :
  hashable k = false -> exists msg, get_weather_icon k = Raise (TypeError msg).
Proof.
  intros H. destruct k; try discriminate H; eexists; reflexivity.
Qed.

(** ** The claims about the script *)

(** C1, as amended.  When the geocoding request raises a
    [RequestException] [e] (the connection fails, the status is 4xx or
    5xx, the body is not JSON), [get_coordinates] issues that one
    request, shows the error "Error during geocoding: " followed by
    the text of [e], and returns the triple (None, None, None), which
    is the value it also returns when the results list is empty: the
    cause is carried by the message on the page, not by the value. *)
Theorem geocoding_failure_is_shown_not_returned w city e :
  response_json (http w GEOCODING_API_URL (geocoding_params city))
  = Ok (inl e) ->
  trace (get_coordinates w city)
  = [HttpGet GEOCODING_API_URL [("name", PStr city); ("count", PInt 1)];
     StError ("Error during geocoding: " +:+ exception_text e)]
  /\ outcome (get_coordinates w city) = Ok (PNone, PNone, PNone)
  /\ outcome (get_coordinates w city) = Ok NotFound.
Proof.
  intros H. rewrite (get_coordinates_failure w city e H).
  repeat split.
Qed.

(** C2.  When the geocoding response carries an empty results list,
    [get_coordinates] returns the not-found triple without raising and
    without showing an error, and the page then issues no request to
    the weather API and ends normally. *)
Theorem empty_results_skip_weather_requests w city d :
  response_json (http w GEOCODING_API_URL (geocoding_params city))
  = Ok (inr (PDict d)) ->
  dict_lookup "results" d = Some (PList []) ->
  get_coordinates w city
  = ([HttpGet GEOCODING_API_URL (geocoding_params city)], Ok NotFound)
  /\ existsb is_weather_request (trace (main w city)) = false
  /\ outcome (main w city) = Ok tt.
Proof.
  intros H Hr. pose proof (get_coordinates_no_results w city d H Hr) as Hg.
  split; [exact Hg|]. unfold main.
  destruct (truthy (PStr city)); [rewrite Hg|]; split; reflexivity.
Qed.

(** C3.  On every call date from 1000-01-08 on, so that both dates of
    the window have a year of four digits, the historical request
    carries a [start_date] that reads, as YYYY-MM-DD, the date seven
    days before today and an [end_date] that reads the date one day
    before today; on 2024-06-15 they are "2024-06-08" and
    "2024-06-14". *)
Theorem historical_request_window w latitude longitude :
  valid (utcnow w) -> ymd2ord 1000 1 8 <= toordinal (utcnow w) ->
  let today := date_of (utcnow w) in
  exists start_date end_date rest,
    trace (fetch_weather_data w latitude longitude true)
    = HttpGet WEATHER_API_URL
        [("latitude", latitude); ("longitude", longitude);
         ("start_date", PStr start_date); ("end_date", PStr end_date);
         ("daily",
          PStr "temperature_2m_max,temperature_2m_min,weather_code")]
      :: rest
    /\ read_iso_date start_date = Some (days_before 7 today)
    /\ read_iso_date end_date = Some (days_before 1 today)
    /\ (today = (2024, 6, 15) ->
        start_date = "2024-06-08" /\ end_date = "2024-06-14").
Proof.
  intros Hv Hord1000 today.
  change (ymd2ord 1000 1 8) with 364885 in Hord1000.
  assert (7 < toordinal (utcnow w)) as Hord by lia.
  pose proof (historical_params (utcnow w) latitude longitude Hv Hord) as Hp.
  fold today in Hp.
  exists (strftime_ymd (on_date (days_before 7 today) (utcnow w))),
         (strftime_ymd (on_date (days_before 1 today) (utcnow w))).
  rewrite (fetch_weather_data_run _ _ _ _ _ Hp).
  match goal with
  | |- context [response_json ?o] =>
      exists (match response_json o with
              | Ok (inl e) =>
                  [StError ("Error fetching weather data: "
                            +:+ exception_text e)]
              | _ => []
              end)
  end.
  split; [destruct (response_json _) as [[e|data]|e]; reflexivity|].
  split; [apply strftime_days_before;
          [exact Hv|change (ymd2ord 1000 1 1) with 364878; lia]|].
  split; [apply strftime_days_before;
          [exact Hv|change (ymd2ord 1000 1 1) with 364878; lia]|].
  intros ->. split; reflexivity.
Qed.

(** C5.  When the geocoding response has at least one result, and the
    first one is an object with a latitude and a longitude,
    [get_coordinates] returns that latitude, that longitude and the
    country of that result, or the empty string when it has none; for
    the single result (49.84, 24.03, "Ukraine") it returns exactly
    that triple. *)
Theorem first_result_is_returned w city d loc rest latitude longitude :
  response_json (http w GEOCODING_API_URL (geocoding_params city))
  = Ok (inr (PDict d)) ->
  dict_lookup "results" d = Some (PList (PDict loc :: rest)) ->
  dict_lookup "latitude" loc = Some latitude ->
  dict_lookup "longitude" loc = Some longitude ->
  outcome (get_coordinates w city)
  = Ok (latitude, longitude,
        match dict_lookup "country" loc with
        | Some country => country
        | None => PStr ""
        end)
  /\ (loc = [("latitude", PFloat (FFin false "4984" 2));
             ("longitude", PFloat (FFin false "2403" 2));
             ("country", PStr "Ukraine")] ->
      outcome (get_coordinates w city)
      = Ok (PFloat (FFin false "4984" 2), PFloat (FFin false "2403" 2),
            PStr "Ukraine")).
Proof.
  intros H Hr Hlat Hlon.
  rewrite (get_coordinates_first_result _ _ _ _ _ _ _ H Hr Hlat Hlon).
  split.
  - destruct (dict_lookup "country" loc); reflexivity.
  - intros ->. cbn in Hlat, Hlon. injection Hlat as <-. injection Hlon as <-.
    reflexivity.
Qed.

(** C6.  The current view of the payload
    {current: {temperature_2m: 21.5, weather_code: 3,
    precipitation_probability: 10, wind_speed_10m: 12}} is three
    metrics: temperature "21.5°C" under a label with the cloud icon,
    wind "12 km/h" and precipitation "10%". *)
Theorem current_view_of_sample_payload :
  tab1 (PDict [("current",
                PDict [("temperature_2m", PFloat (FFin false "215" 2));
                       ("weather_code", PInt 3);
                       ("precipitation_probability", PInt 10);
                       ("wind_speed_10m", PInt 12)])])
  = ([StColumns 3;
      StMetric 1 "Temperature ☁️" "21.5°C";
      StMetric 2 "Wind Speed 💨" "12 km/h";
      StMetric 3 "Precipitation Chance 💧" "10%"],
     Ok tt).
Proof. vm_compute. reflexivity. Qed.

(** C7.  For a payload object without the key [hourly], or whose
    hourly block is an object without the key [time], the hourly view
    is one warning and raises nothing. *)
Theorem hourly_view_warns_without_time_axis payload :
  dict_lookup "hourly" payload = None
  \/ (exists block, dict_lookup "hourly" payload = Some (PDict block)
                    /\ dict_lookup "time" block = None) ->
  exists text, tab2 (PDict payload) = ([StWarning text], Ok tt).
Proof.
  intros H. unfold tab2. destruct (truthy (PDict payload)); [|eauto].
  cbn [py_get lift mbind ui_bind].
  destruct H as [H|(block & H & Ht)]; rewrite H; cbn -[dict_lookup].
  - eauto.
  - unfold has_time_axis, py_contains.
    destruct (truthy (PDict block)); [rewrite Ht|]; cbn; eauto.
Qed.

(** C8.  For every pair of coordinates, the first and only request of
    the current-mode fetch goes to the forecast endpoint with exactly
    the five parameters latitude, longitude, current, hourly and
    forecast_days=1. *)
Theorem current_request_parameters w latitude longitude :
  exists rest,
    trace (fetch_weather_data w latitude longitude false)
    = HttpGet WEATHER_API_URL
        [("latitude", latitude); ("longitude", longitude);
         ("current",
          PStr "temperature_2m,weather_code,precipitation_probability,wind_speed_10m");
         ("hourly",
          PStr "temperature_2m,precipitation_probability,wind_speed_10m");
         ("forecast_days", PInt 1)]
      :: rest
    /\ existsb is_weather_request rest = false.
Proof.
  rewrite (fetch_weather_data_run _ _ _ _ _
             (current_params (utcnow w) latitude longitude)).
  destruct (response_json _) as [[e|data]|e]; eexists; split; reflexivity.
Qed.

(** C9, as amended.  For a payload with a current block, the current
    view is gated on the temperature alone, in both directions, when
    the weather code is absent or a value Python can hash (null, a
    boolean, a number, a string).  With a temperature that is not null
    the three metric cards are rendered whatever else is missing, a
    missing field printing as the text None: "None km/h" for the wind,
    "None%" for the precipitation; no warning is shown.  With no
    temperature, or a null one, the view is the warning "Could not
    retrieve current conditions." and no card, whatever the other
    fields hold.  When the weather code is a list or an object, the
    icon lookup raises [TypeError] and the view renders nothing,
    whatever the temperature. *)
Theorem current_view_gated_on_temperature payload current :
  dict_lookup "current" payload = Some (PDict current) ->
  let code := default PNone (dict_lookup "weather_code" current) in
  let temperature := default PNone (dict_lookup "temperature_2m" current) in
  let shown (field : string) :=
    match dict_lookup field current with
    | Some v => py_str v
    | None => "None"
    end in
  (hashable code = true ->
   exists icon,
     get_weather_icon code = Ok icon
     /\ tab1 (PDict payload)
        = (if is_none temperature
           then [StWarning "Could not retrieve current conditions."]
           else [StColumns 3;
                 StMetric 1 ("Temperature " +:+ icon)
                   (py_str temperature +:+ "°C");
                 StMetric 2 "Wind Speed 💨"
                   (shown "wind_speed_10m" +:+ " km/h");
                 StMetric 3 "Precipitation Chance 💧"
                   (shown "precipitation_probability" +:+ "%")],
           Ok tt)
     /\ existsb is_warning (trace (tab1 (PDict payload)))
        = is_none temperature)
  /\ (hashable code = false ->
      exists msg, tab1 (PDict payload) = ([], Raise (TypeError msg)))
  /\ (dict_lookup "wind_speed_10m" current = None ->
      shown "wind_speed_10m" +:+ " km/h" = "None km/h")
  /\ (dict_lookup "precipitation_probability" current = None ->
      shown "precipitation_probability" +:+ "%" = "None%").
Proof.
  intros Hcur code temperature shown.
  pose proof (tab1_of_current_block _ _ Hcur) as Htab. fold code in Htab.
  split; [|split].
  - intros Hcode.
    destruct (get_weather_icon_hashable _ Hcode) as (icon & Hicon & _).
    exists icon. split; [exact Hicon|]. rewrite Htab, Hicon.
    rewrite (py_str_default (dict_lookup "wind_speed_10m" current)),
      (py_str_default (dict_lookup "precipitation_probability" current)).
    fold temperature. fold (shown "wind_speed_10m").
    fold (shown "precipitation_probability").
    split; [reflexivity|]. destruct (is_none temperature); reflexivity.
  - intros Hcode.
    destruct (get_weather_icon_unhashable _ Hcode) as (msg & Hmsg).
    exists msg. rewrite Htab, Hmsg. reflexivity.
  - subst shown. cbv beta. split; intros ->; reflexivity.
Qed.

(** C10, as amended.  [get_weather_icon] returns a glyph for every
    key that Python can hash (None, booleans, numbers, strings), and
    the unknown glyph for None; so a current block with a temperature
    and no weather code is rendered with the temperature label
    "Temperature ❓".  On a key that cannot be hashed (a list, an object)
    the lookup raises TypeError. *)
Theorem icon_for_every_hashable_key :
  (forall key,
      hashable key = true ->
      exists glyph, get_weather_icon key = Ok glyph
                    /\ (0 < String.length glyph)%nat)
  /\ get_weather_icon PNone = Ok "❓"
  /\ (forall payload current temperature,
        dict_lookup "current" payload = Some (PDict current) ->
        dict_lookup "temperature_2m" current = Some temperature ->
        temperature <> PNone ->
        dict_lookup "weather_code" current = None ->
        exists rest,
          tab1 (PDict payload)
          = (StColumns 3
             :: StMetric 1 "Temperature ❓" (py_str temperature +:+ "°C")
             :: rest,
             Ok tt))
  /\ (forall key,
        hashable key = false ->
        exists msg, get_weather_icon key = Raise (TypeError msg)).
Proof.
  split; [exact get_weather_icon_hashable|]. split; [reflexivity|]. split.
  - intros payload current temperature Hcur Htemp Hnone Hcode.
    erewrite (tab1_with_temperature _ _ _ _ Hcur Htemp Hnone).
    + eexists. reflexivity.
    + rewrite Hcode. reflexivity.
  - intros key H. destruct key; try discriminate H; eexists; reflexivity.
Qed.

End AppFacts.

(** C4.  On every integer, negative ones and codes outside the table
    included, the icon lookup returns a glyph; it returns the sun for 0,
    the thunderstorm for 95 and the unknown glyph for 12345 and for
    every negative code. *)
Theorem icon_for_every_integer :
  (forall z : Z,
     exists glyph, get_weather_icon (PInt z) = Ok glyph
                   /\ (0 < String.length glyph)%nat)
  /\ (forall p : positive, get_weather_icon (PInt (Z.neg p)) = Ok "❓")
  /\ get_weather_icon (PInt 0) = Ok "☀️"
  /\ get_weather_icon (PInt 95) = Ok "⛈️"
  /\ get_weather_icon (PInt 12345) = Ok "❓".
Proof.
  split; [|split; [|split; [|split]]].
  - intros z. eexists. split; [reflexivity|]. apply (icon_nonempty (Some z)).
  - intros p. rewrite get_weather_icon_int, icons_negative. reflexivity.
  - vm_compute. reflexivity.
  - vm_compute. reflexivity.
  - vm_compute. reflexivity.
Qed.

(** ** Concrete runs of the claims *)

(** C1, the claim as written fails: a refused connection and a 503
    answer both make [get_coordinates] return the very triple that an
    empty results list makes it return. *)
Lemma fetch_error_returns_not_found :
  response_json (http failing_world GEOCODING_API_URL
                   (geocoding_params "Lviv"))
  = Ok (inl (ConnectionError "connection refused"))
  /\ response_json (http server_error_world GEOCODING_API_URL
                      (geocoding_params "Lviv"))
     = Ok (inl (HTTPError 503))
  /\ outcome (get_coordinates (RT := plain_runtime) failing_world "Lviv")
     = outcome (get_coordinates (RT := plain_runtime) empty_world "Lviv")
  /\ outcome (get_coordinates (RT := plain_runtime) server_error_world "Lviv")
     = outcome (get_coordinates (RT := plain_runtime) empty_world "Lviv")
  /\ outcome (get_coordinates (RT := plain_runtime) empty_world "Lviv")
     = Ok NotFound.
Proof. repeat split. Qed.

(** A refused connection: the request, the error on the page, and the
    not-found triple. *)
Lemma geocoding_failure_run :
  response_json (http failing_world GEOCODING_API_URL (geocoding_params "Lviv"))
  = Ok (inl (ConnectionError "connection refused"))
  /\ trace (get_coordinates (RT := plain_runtime) failing_world "Lviv")
     = [HttpGet GEOCODING_API_URL [("name", PStr "Lviv"); ("count", PInt 1)];
        StError "Error during geocoding: connection refused"]
  /\ outcome (get_coordinates (RT := plain_runtime) failing_world "Lviv")
     = Ok (PNone, PNone, PNone)
  /\ outcome (get_coordinates (RT := plain_runtime) failing_world "Lviv")
     = Ok NotFound.
Proof.
  split; [reflexivity|].
  apply (geocoding_failure_is_shown_not_returned (RT := plain_runtime)
           failing_world "Lviv" (ConnectionError "connection refused")).
  reflexivity.
Defined.

(** An empty results list for "Lviv". *)
Lemma empty_results_run :
  response_json (http empty_world GEOCODING_API_URL (geocoding_params "Lviv"))
  = Ok (inr (PDict [("results", PList [])]))
  /\ dict_lookup "results" [("results", PList [])] = Some (PList [])
  /\ get_coordinates (RT := plain_runtime) empty_world "Lviv"
     = ([HttpGet GEOCODING_API_URL (geocoding_params "Lviv")], Ok NotFound)
  /\ existsb is_weather_request
       (trace (main (RT := plain_runtime) empty_world "Lviv")) = false
  /\ outcome (main (RT := plain_runtime) empty_world "Lviv") = Ok tt.
Proof.
  split; [reflexivity|]. split; [reflexivity|].
  apply (empty_results_skip_weather_requests (RT := plain_runtime)
           empty_world "Lviv" [("results", PList [])]); reflexivity.
Defined.

(** The historical request of a run at noon on 2024-06-15. *)
Lemma historical_request_on_2024_06_15 :
  Datetime.valid (utcnow lviv_world)
  /\ Datetime.ymd2ord 1000 1 8 <= Datetime.toordinal (utcnow lviv_world)
  /\ exists rest,
       trace (fetch_weather_data (RT := plain_runtime) lviv_world
                (PFloat (FFin false "4984" 2)) (PFloat (FFin false "2403" 2))
                true)
       = HttpGet WEATHER_API_URL
           [("latitude", PFloat (FFin false "4984" 2));
            ("longitude", PFloat (FFin false "2403" 2));
            ("start_date", PStr "2024-06-08");
            ("end_date", PStr "2024-06-14");
            ("daily",
             PStr "temperature_2m_max,temperature_2m_min,weather_code")]
         :: rest.
Proof.
  assert (Datetime.valid (utcnow lviv_world)) as Hv
    by (repeat split; vm_compute; discriminate).
  assert (Datetime.ymd2ord 1000 1 8
          <= Datetime.toordinal (utcnow lviv_world)) as Ho
    by (vm_compute; discriminate).
  split; [exact Hv|]. split; [exact Ho|].
  destruct (historical_request_window (RT := plain_runtime) lviv_world
              (PFloat (FFin false "4984" 2)) (PFloat (FFin false "2403" 2))
              Hv Ho)
    as (start_date & end_date & rest & Ht & _ & _ & Hc).
  destruct (Hc eq_refl) as [Hs He]. exists rest.
  rewrite <- Hs, <- He. exact Ht.
Defined.

(** The single result (49.84, 24.03, "Ukraine"). *)
Lemma first_result_of_lviv :
  response_json (http lviv_world GEOCODING_API_URL (geocoding_params "Lviv"))
  = Ok (inr (PDict [("results", PList [PDict lviv_result])]))
  /\ dict_lookup "results" [("results", PList [PDict lviv_result])]
     = Some (PList [PDict lviv_result])
  /\ dict_lookup "latitude" lviv_result = Some (PFloat (FFin false "4984" 2))
  /\ dict_lookup "longitude" lviv_result = Some (PFloat (FFin false "2403" 2))
  /\ outcome (get_coordinates (RT := plain_runtime) lviv_world "Lviv")
     = Ok (PFloat (FFin false "4984" 2), PFloat (FFin false "2403" 2),
           PStr "Ukraine").
Proof.
  repeat (split; [reflexivity|]).
  apply (first_result_is_returned (RT := plain_runtime) lviv_world "Lviv"
           [("results", PList [PDict lviv_result])] lviv_result []
           (PFloat (FFin false "4984" 2)) (PFloat (FFin false "2403" 2)));
    reflexivity.
Defined.

(** The hourly view of a payload that only has a current block. *)
Lemma hourly_view_of_current_only_payload :
  (dict_lookup "hourly" [("current", PDict sample_current)] = None
   \/ exists block,
        dict_lookup "hourly" [("current", PDict sample_current)]
        = Some (PDict block)
        /\ dict_lookup "time" block = None)
  /\ exists text,
       tab2 (RT := plain_runtime) (PDict [("current", PDict sample_current)])
       = ([StWarning text], Ok tt).
Proof.
  assert (dict_lookup "hourly" [("current", PDict sample_current)] = None
          \/ exists block,
               dict_lookup "hourly" [("current", PDict sample_current)]
               = Some (PDict block)
               /\ dict_lookup "time" block = None) as H
    by (left; reflexivity).
  split; [exact H|].
  exact (hourly_view_warns_without_time_axis (RT := plain_runtime) _ H).
Defined.

(** C9, the claim as written fails: a current block with a temperature,
    without wind speed and precipitation probability, and with a list
    for its weather code is a payload of the claim, and its current
    view renders no card: the icon lookup raises before anything is
    shown. *)
Lemma current_view_of_list_code_renders_nothing :
  dict_lookup "temperature_2m" list_code_current
  = Some (PFloat (FFin false "215" 2))
  /\ is_none (PFloat (FFin false "215" 2)) = false
  /\ dict_lookup "wind_speed_10m" list_code_current = None
  /\ dict_lookup "precipitation_probability" list_code_current = None
  /\ tab1 (RT := plain_runtime)
       (PDict [("current", PDict list_code_current)])
     = ([], Raise (TypeError "unhashable type: 'list'")).
Proof. repeat split. Qed.

(** The current view of a payload with a temperature and nothing else,
    and of a payload whose temperature is null while the rest is
    there. *)
Lemma current_view_of_temperature_only :
  dict_lookup "current" temperature_only
  = Some (PDict [("temperature_2m", PFloat (FFin false "215" 2))])
  /\ hashable
       (default PNone
          (dict_lookup "weather_code"
             [("temperature_2m", PFloat (FFin false "215" 2))])) = true
  /\ (exists icon,
        tab1 (RT := plain_runtime) (PDict temperature_only)
        = ([StColumns 3;
            StMetric 1 ("Temperature " +:+ icon) "21.5°C";
            StMetric 2 "Wind Speed 💨" "None km/h";
            StMetric 3 "Precipitation Chance 💧" "None%"],
           Ok tt))
  /\ tab1 (RT := plain_runtime)
       (PDict [("current",
                PDict [("temperature_2m", PNone); ("weather_code", PInt 3);
                       ("precipitation_probability", PInt 10);
                       ("wind_speed_10m", PInt 12)])])
     = ([StWarning "Could not retrieve current conditions."], Ok tt).
Proof.
  split; [reflexivity|]. split; [reflexivity|]. split.
  - destruct (current_view_gated_on_temperature (RT := plain_runtime)
                temperature_only
                [("temperature_2m", PFloat (FFin false "215" 2))]
                eq_refl) as (Hgate & _).
    destruct (Hgate eq_refl) as (icon & _ & Ht & _).
    exists icon. exact Ht.
  - destruct (current_view_gated_on_temperature (RT := plain_runtime)
                [("current",
                  PDict [("temperature_2m", PNone); ("weather_code", PInt 3);
                         ("precipitation_probability", PInt 10);
                         ("wind_speed_10m", PInt 12)])]
                [("temperature_2m", PNone); ("weather_code", PInt 3);
                 ("precipitation_probability", PInt 10);
                 ("wind_speed_10m", PInt 12)]
                eq_refl) as (Hgate & _).
    destruct (Hgate eq_refl) as (icon & _ & Ht & _).
    exact Ht.
Defined.

(** C10, the claim as written fails: a list is a value the lookup can be
    handed, and on it the lookup raises instead of returning a glyph, so
    that the current view of a payload whose weather code is a list
    raises as well. *)
Lemma icon_lookup_raises_on_list_key :
  get_weather_icon (PList []) = Raise (TypeError "unhashable type: 'list'")
  /\ ~ (exists glyph, get_weather_icon (PList []) = Ok glyph)
  /\ outcome
       (tab1 (RT := plain_runtime)
          (PDict [("current",
                   PDict [("temperature_2m", PFloat (FFin false "215" 2));
                          ("weather_code", PList [])])]))
     = Raise (TypeError "unhashable type: 'list'").
Proof.
  split; [reflexivity|]. split; [|reflexivity].
  intros [glyph H]. discriminate H.
Qed.

(** The icon of a missing weather code, alone and in the current view. *)
Lemma icon_of_missing_weather_code :
  hashable PNone = true
  /\ (exists glyph, get_weather_icon PNone = Ok glyph
                    /\ (0 < String.length glyph)%nat)
  /\ dict_lookup "weather_code"
       [("temperature_2m", PFloat (FFin false "215" 2))] = None
  /\ exists rest,
       tab1 (RT := plain_runtime) (PDict temperature_only)
       = (StColumns 3 :: StMetric 1 "Temperature ❓" "21.5°C" :: rest, Ok tt).
Proof.
  assert (PFloat (FFin false "215" 2) <> PNone) as Hne by discriminate.
  destruct (icon_for_every_hashable_key (RT := plain_runtime))
    as (Hkeys & _ & Hview & _).
  split; [reflexivity|]. split; [exact (Hkeys PNone eq_refl)|].
  split; [reflexivity|].
  exact (Hview temperature_only
           [("temperature_2m", PFloat (FFin false "215" 2))]
           (PFloat (FFin false "215" 2)) eq_refl eq_refl Hne eq_refl).
Defined.

(** * More properties of the script *)

(** ** The icon table, continued *)

Lemma icons_known z : WEATHER_ICONS !! z = None <-> z ∉ known_codes.
Proof.
  split.
  - intros H Hin. unfold known_codes in Hin.
    rewrite !elem_of_cons, elem_of_nil in Hin.
    repeat destruct Hin as [->|Hin]; try (vm_compute in H; discriminate H).
    exact Hin.
  - intros H. unfold WEATHER_ICONS. apply not_elem_of_list_to_map_1. exact H.
Qed.

Lemma icons_not_unknown :
  map_Forall (fun _ g => g <> UNKNOWN_ICON) WEATHER_ICONS.
Proof.
  unfold WEATHER_ICONS. apply map_Forall_to_list. vm_compute.
  repeat constructor; discriminate.
Qed.

(** X1.  The unknown glyph marks exactly the codes that the table does
    not know: an integer code gets "❓" if and only if it is none of the
    28 codes of the table, so no known code is shown as unknown. *)
Theorem unknown_icon_marks_unknown_codes z :
  get_weather_icon (PInt z) = Ok UNKNOWN_ICON <-> z ∉ known_codes.
Proof.
  rewrite get_weather_icon_int, <- icons_known.
  destruct (WEATHER_ICONS !! z) as [g|] eqn:E; cbn [default].
  - split; [|discriminate]. intros [= ->]. exfalso.
    exact (icons_not_unknown z _ E eq_refl).
  - split; reflexivity.
Qed.


(** ** More of the script *)

Module DatetimeMore.
Import Datetime Calendar DatetimeFacts.

Lemma ordinal_positive dt : calendar_date dt -> 1 <= ordinal dt.
Proof.
  destruct dt as [[y m] d]. intros (Hy & Hm & Hd). unfold ordinal, ymd2ord.
  assert (0 <= days_before_year y)
    by (unfold days_before_year; divmod).
  assert (0 <= days_before_month y m); [|lia].
  unfold days_before_month.
  each_month m Hm; destruct (is_leap y); vm_compute; discriminate.
Qed.

Lemma datetime_sub_overflow t (k : nat) :
  valid t -> toordinal t <= Z.of_nat k -> Z.of_nat k <= 999999999 ->
  (td ← timedelta_days (Z.of_nat k); datetime_sub t td)
  = Raise (OverflowError "date value out of range").
Proof.
  intros Hv Hk Hbig. pose proof Hv as [(Hy & Hm & Hd) (Hh & Hmi & Hs & Hus)].
  pose proof (ordinal_positive _ (valid_calendar_date t Hv)) as Hpos.
  change (ordinal (date_of t)) with (toordinal t) in Hpos.
  unfold timedelta_days, timedelta_new.
  change (0 / 1000000) with 0. change (0 mod 1000000) with 0.
  change ((0 + 0) / 86400) with 0. change ((0 + 0) mod 86400) with 0.
  rewrite Z.add_0_r.
  destruct (Z.ltb_spec 999999999 (Z.abs (Z.of_nat k))); [lia|].
  cbn [mbind result_bind].
  unfold datetime_sub, timedelta_neg, timedelta_new.
  cbn [days seconds microseconds]. change (- 0) with 0.
  change (0 / 1000000) with 0. change (0 mod 1000000) with 0.
  change ((0 + 0) / 86400) with 0. change ((0 + 0) mod 86400) with 0.
  rewrite Z.add_0_r.
  destruct (Z.ltb_spec 999999999 (Z.abs (- Z.of_nat k))); [lia|].
  cbn [mbind result_bind].
  unfold datetime_add, timedelta_new.
  set (secs := hour t * 3600 + minute t * 60 + second t).
  assert (0 <= secs < 86400) as Hsecs by (subst secs; lia).
  assert (microsecond t / 1000000 = 0) as -> by divmod.
  assert (microsecond t mod 1000000 = microsecond t) as -> by divmod.
  rewrite Z.add_0_r.
  assert (secs / 86400 = 0) as -> by divmod.
  assert (secs mod 86400 = secs) as -> by divmod.
  rewrite Z.add_0_r.
  destruct (Z.ltb_spec 999999999 (Z.abs (toordinal t))); [lia|].
  cbn [mbind result_bind].
  unfold timedelta_add, timedelta_new. cbn [days seconds microseconds].
  rewrite !Z.add_0_r.
  assert (microsecond t / 1000000 = 0) as -> by divmod.
  assert (microsecond t mod 1000000 = microsecond t) as -> by divmod.
  rewrite Z.add_0_r.
  assert (secs / 86400 = 0) as -> by divmod.
  assert (secs mod 86400 = secs) as -> by divmod.
  rewrite Z.add_0_r.
  destruct (Z.ltb_spec 999999999 (Z.abs (toordinal t + - Z.of_nat k)));
    [lia|].
  cbn [mbind result_bind days seconds microseconds].
  destruct (Z.ltb_spec 0 (toordinal t + - Z.of_nat k)); [lia|].
  reflexivity.
Qed.

Lemma strftime_on_date `{RT : Runtime} dt t1 t2 :
  strftime_ymd (on_date dt t1) = strftime_ymd (on_date dt t2).
Proof. destruct dt as [[y m] d]. reflexivity. Qed.
End DatetimeMore.


Section MoreFacts.
Context `{RT : Runtime}.
Import Datetime Calendar DatetimeFacts DatetimeMore.

(** *** Traces of composed runs *)

Lemma trace_bind {A B} (m : ui A) (f : A -> ui B) :
  trace (m ≫= f)
  = match outcome m with
    | Ok a => (trace m ++ trace (f a))%list
    | Raise _ => trace m
    end.
Proof.
  destruct m as [es [a|e]]; cbn; [|reflexivity].
  destruct (f a); reflexivity.
Qed.

Lemma outcome_bind {A B} (m : ui A) (f : A -> ui B) :
  outcome (m ≫= f)
  = match outcome m with
    | Ok a => outcome (f a)
    | Raise e => Raise e
    end.
Proof.
  destruct m as [es [a|e]]; cbn; [|reflexivity].
  destruct (f a); reflexivity.
Qed.

Lemma requests_app es1 es2 :
  requests (es1 ++ es2) = (requests es1 ++ requests es2)%list.
Proof. apply omap_app. Qed.

Lemma requests_within_tab {A} i (m : ui A) :
  requests (trace (within (InTab i) m)) = requests (trace m).
Proof.
  unfold within, trace, requests. cbn [fst]. induction (m.1) as [|e es IH]; [reflexivity|].
  cbn. rewrite IH. reflexivity.
Qed.

Lemma tab1_no_requests p : requests (trace (tab1 p)) = [].
Proof.
  unfold tab1. destruct (truthy p); [|reflexivity].
  destruct p; try reflexivity. cbn -[get_weather_icon py_str].
  set (cur := from_option id (PDict []) (dict_lookup "current" d)).
  destruct cur; try reflexivity. cbn -[get_weather_icon py_str].
  destruct (get_weather_icon _); [|reflexivity]. cbn -[py_str].
  destruct (is_none _); reflexivity.
Qed.

Lemma tab2_no_requests p : requests (trace (tab2 p)) = [].
Proof.
  unfold tab2. destruct (truthy p); [|reflexivity].
  destruct p; try reflexivity. cbn -[has_time_axis].
  destruct (has_time_axis _) as [[]|]; try reflexivity. cbn.
  destruct (time_indexed_frame _); reflexivity.
Qed.

Lemma tab3_no_requests p : requests (trace (tab3 p)) = [].
Proof.
  unfold tab3. destruct (truthy p); [|reflexivity].
  destruct p; try reflexivity. cbn -[has_time_axis].
  destruct (has_time_axis _) as [[]|]; try reflexivity. cbn.
  destruct (time_indexed_frame _); [|reflexivity]. cbn.
  destruct (select_columns _ _); reflexivity.
Qed.

Lemma truthy_city city : city <> "" -> truthy (PStr city) = true.
Proof.
  intros H. cbn. apply negb_true_iff, String.eqb_neq. exact H.
Qed.

Lemma get_json_run w url params :
  get_json w url params
  = ([HttpGet url params], response_json (http w url params)).
Proof.
  unfold get_json. cbn. destruct (response_json _); reflexivity.
Qed.

Lemma trace_lift_bind {A B} (r : result A) (f : A -> ui B) :
  trace (lift r ≫= f)
  = match r with Ok a => trace (f a) | Raise _ => [] end.
Proof. rewrite trace_bind. destruct r; reflexivity. Qed.

Lemma get_coordinates_trace w city :
  trace (get_coordinates w city)
  = HttpGet GEOCODING_API_URL (geocoding_params city)
    :: match response_json
               (http w GEOCODING_API_URL (geocoding_params city)) with
       | Ok (inl e) =>
           [StError ("Error during geocoding: " +:+ exception_text e)]
       | _ => []
       end.
Proof.
  unfold get_coordinates. rewrite trace_bind, get_json_run.
  cbn [trace outcome fst snd app].
  destruct (response_json _) as [[e|data]|e]; [reflexivity| |reflexivity].
  rewrite trace_lift_bind. f_equal.
  destruct (_ ≫= _) as [[]|]; reflexivity.
Qed.

Lemma get_coordinates_missing_results w city d :
  response_json (http w GEOCODING_API_URL (geocoding_params city))
  = Ok (inr (PDict d)) ->
  dict_lookup "results" d = None ->
  get_coordinates w city
  = ([HttpGet GEOCODING_API_URL (geocoding_params city)],
     Ok (PNone, PNone, PNone)).
Proof.
  intros H Hr. unfold get_coordinates, get_json. cbn. rewrite H.
  cbn. rewrite Hr. reflexivity.
Qed.

Lemma main_not_resolved w city es lat lon country :
  city <> "" ->
  get_coordinates w city = (es, Ok (lat, lon, country)) ->
  is_none lat || is_none lon = true ->
  main w city
  = ((page_head ++ es ++
      [StError ("Could not find coordinates for '" +:+ city
                +:+ "'. Please check the spelling or try a different city.")])%list,
     Ok tt).
Proof.
  intros Hc Hg Hn. unfold main. rewrite (truthy_city city Hc), Hg.
  cbn -[app]. 
  assert (negb (is_none lat) && negb (is_none lon) = false) as ->
    by (destruct (is_none lat), (is_none lon); try reflexivity; discriminate).
  reflexivity.
Qed.

Lemma main_resolved w city es lat lon country es1 fd es2 hd :
  city <> "" ->
  get_coordinates w city = (es, Ok (lat, lon, country)) ->
  is_none lat = false -> is_none lon = false ->
  fetch_weather_data w lat lon false = (es1, Ok fd) ->
  fetch_weather_data w lat lon true = (es2, Ok hd) ->
  main w city
  = ((page_head ++ es
      ++ [StSubheader ("Weather for " +:+ str_title city +:+ ", "
                       +:+ py_str country)]
      ++ es1 ++ es2
      ++ [StTabs ["Current Conditions"; "Hourly Forecast"; "Historical Data"]]
      ++ trace (render_tabs fd hd))%list,
     outcome (render_tabs fd hd)).
Proof.
  intros Hc Hg Hlat Hlon H1 H2. unfold main.
  rewrite (truthy_city city Hc), Hg. cbn -[app fetch_weather_data tab1 tab2 tab3 within].
  rewrite Hlat, Hlon. cbn -[app fetch_weather_data tab1 tab2 tab3 within].
  rewrite H1, H2. unfold render_tabs. cbn -[app tab1 tab2 tab3].
  destruct (tab1 fd) as [t1 [[]|e1]], (tab2 fd) as [t2 [[]|e2]],
           (tab3 hd) as [t3 r3]; reflexivity.
Qed.

Lemma requests_get_coordinates w city :
  requests (trace (get_coordinates w city))
  = [(GEOCODING_API_URL, geocoding_params city)].
Proof.
  rewrite get_coordinates_trace.
  destruct (response_json _) as [[e|data]|e]; reflexivity.
Qed.

Lemma fetch_weather_data_raise w latitude longitude h e :
  weather_params (utcnow w) latitude longitude h = Raise e ->
  fetch_weather_data w latitude longitude h = ([], Raise e).
Proof. intros H. unfold fetch_weather_data. rewrite H. reflexivity. Qed.

Lemma fetch_weather_data_requests w latitude longitude h params :
  weather_params (utcnow w) latitude longitude h = Ok params ->
  requests (trace (fetch_weather_data w latitude longitude h))
  = [(WEATHER_API_URL, params)].
Proof.
  intros H. rewrite (fetch_weather_data_run _ _ _ _ _ H).
  destruct (response_json _) as [[e|data]|e]; reflexivity.
Qed.

Lemma fetch_weather_data_outcome w latitude longitude h params :
  weather_params (utcnow w) latitude longitude h = Ok params ->
  outcome (fetch_weather_data w latitude longitude h)
  = match response_json (http w WEATHER_API_URL params) with
    | Ok (inr data) => Ok data
    | Ok (inl _) => Ok PNone
    | Raise e => Raise e
    end.
Proof.
  intros H. rewrite (fetch_weather_data_run _ _ _ _ _ H).
  destruct (response_json _) as [[e|data]|e]; reflexivity.
Qed.

Lemma render_tabs_no_requests fd hd : requests (trace (render_tabs fd hd)) = [].
Proof.
  unfold render_tabs. rewrite trace_bind.
  destruct (outcome (within (InTab 1) (tab1 fd))).
  - rewrite requests_app, requests_within_tab, tab1_no_requests, trace_bind.
    destruct (outcome (within (InTab 2) (tab2 fd))).
    + rewrite requests_app, !requests_within_tab, tab2_no_requests,
        tab3_no_requests. reflexivity.
    + rewrite requests_within_tab, tab2_no_requests. reflexivity.
  - rewrite requests_within_tab, tab1_no_requests. reflexivity.
Qed.

Lemma main_requests w city :
  requests (trace (main w city))
  = if truthy (PStr city) then
      (GEOCODING_API_URL, geocoding_params city)
      :: match outcome (get_coordinates w city) with
         | Ok (lat, lon, _) =>
             if negb (is_none lat) && negb (is_none lon) then
               match weather_params (utcnow w) lat lon false with
               | Ok current =>
                   (WEATHER_API_URL, current)
                   :: match response_json (http w WEATHER_API_URL current),
                            weather_params (utcnow w) lat lon true with
                      | Ok _, Ok historical => [(WEATHER_API_URL, historical)]
                      | _, _ => []
                      end
               | Raise _ => []
               end
             else []
         | Raise _ => []
         end
    else [].
Proof.
  unfold main. rewrite !trace_bind. cbn [outcome emit snd trace fst].
  rewrite !requests_app. cbn [requests omap list_omap request_of app].
  fold (@requests RT).
  destruct (truthy (PStr city)); [|reflexivity].
  rewrite trace_bind.
  destruct (outcome (get_coordinates w city)) as [[[lat lon] country]|];
    [|apply requests_get_coordinates].
  rewrite requests_app, requests_get_coordinates. cbn [app]. f_equal.
  destruct (negb (is_none lat) && negb (is_none lon)); [|reflexivity].
  rewrite trace_bind. cbn [outcome emit snd trace fst].
  rewrite requests_app. cbn [requests omap list_omap request_of app].
  fold (@requests RT).
  rewrite trace_bind.
  rewrite current_params.
  pose proof (current_params (utcnow w) lat lon) as Hcp.
  rewrite (fetch_weather_data_outcome w lat lon false _ Hcp).
  pose proof (fetch_weather_data_requests w lat lon false _ Hcp) as Hr1.
  assert (forall fd,
             requests
               (trace
                  (historical_data ← fetch_weather_data w lat lon true;
                   emit (StTabs ["Current Conditions"; "Hourly Forecast";
                                 "Historical Data"]);;
                   within (InTab 1) (tab1 fd);;
                   within (InTab 2) (tab2 fd);;
                   within (InTab 3) (tab3 historical_data)))
             = match weather_params (utcnow w) lat lon true with
               | Ok historical => [(WEATHER_API_URL, historical)]
               | Raise _ => []
               end) as Hrest.
  { intros fd. rewrite trace_bind.
    destruct (weather_params (utcnow w) lat lon true) as [hp|e] eqn:Hp.
    - pose proof (fetch_weather_data_requests w lat lon true _ Hp) as Hr2.
      destruct (outcome (fetch_weather_data w lat lon true)) as [hd|e];
        [|exact Hr2].
      rewrite requests_app, Hr2. cbn [app]. f_equal.
      rewrite trace_bind. cbn [outcome emit snd trace fst].
      rewrite requests_app. fold (render_tabs fd hd).
      rewrite render_tabs_no_requests. reflexivity.
    - rewrite (fetch_weather_data_raise _ _ _ _ _ Hp). reflexivity. }
  destruct (response_json _) as [[e|data]|e]; [| |rewrite Hr1; reflexivity];
    rewrite requests_app, Hr1, Hrest; cbn [app];
    destruct (weather_params (utcnow w) lat lon true); reflexivity.
Qed.

(** X2.  Whatever the service answers, and also when the function then
    raises, [get_coordinates] issues exactly one request, to the
    geocoding endpoint with name=<city> and count=1, and it shows its
    error message exactly when that request failed: an empty or
    malformed answer shows nothing. *)
Theorem geocoding_is_requested_once w city :
  trace (get_coordinates w city)
  = HttpGet GEOCODING_API_URL [("name", PStr city); ("count", PInt 1)]
    :: match response_json
               (http w GEOCODING_API_URL
                  [("name", PStr city); ("count", PInt 1)]) with
       | Ok (inl e) =>
           [StError ("Error during geocoding: " +:+ exception_text e)]
       | _ => []
       end.
Proof. apply get_coordinates_trace. Qed.

(** X3.  An answer without the key [results] (what the service sends for
    a name it does not know) is treated like an empty results list: the
    not-found triple, no message from the resolver, and no request to
    the weather endpoint from the page. *)
Theorem missing_results_key_is_not_found w city d :
  response_json (http w GEOCODING_API_URL (geocoding_params city))
  = Ok (inr (PDict d)) ->
  dict_lookup "results" d = None ->
  get_coordinates w city
  = ([HttpGet GEOCODING_API_URL (geocoding_params city)], Ok NotFound)
  /\ existsb is_weather_request (trace (main w city)) = false.
Proof.
  intros H Hr. pose proof (get_coordinates_missing_results w city d H Hr) as Hg.
  split; [exact Hg|]. unfold main.
  destruct (truthy (PStr city)); [rewrite Hg|]; reflexivity.
Qed.

(** X4.  When the first result lacks [latitude] or [longitude], the
    [KeyError] of the subscript is not caught by the
    [except RequestException] clause: [get_coordinates] raises it, after
    its one request and without showing a message. *)
Theorem incomplete_first_result_raises w city d loc rest :
  response_json (http w GEOCODING_API_URL (geocoding_params city))
  = Ok (inr (PDict d)) ->
  dict_lookup "results" d = Some (PList (PDict loc :: rest)) ->
  dict_lookup "latitude" loc = None \/ dict_lookup "longitude" loc = None ->
  exists key,
    get_coordinates w city
    = ([HttpGet GEOCODING_API_URL (geocoding_params city)],
       Raise (KeyError key))
    /\ (key = "latitude" \/ key = "longitude")
    /\ dict_lookup key loc = None.
Proof.
  intros H Hr Hmiss. unfold get_coordinates, get_json. cbn. rewrite H.
  cbn. rewrite Hr. cbn.
  destruct (dict_lookup "latitude" loc) as [lat|] eqn:Hlat.
  - destruct Hmiss as [Hm|Hm]; [discriminate Hm|]. rewrite Hm.
    exists "longitude". auto.
  - exists "latitude". auto.
Qed.

(** X5.  The page after a failed geocoding request, for every non-empty
    city: the resolver's error message with the cause, then the page's
    own "Could not find coordinates" message, no weather request, and a
    normal end. *)
Theorem failed_geocoding_page w city e :
  city <> "" ->
  response_json (http w GEOCODING_API_URL (geocoding_params city))
  = Ok (inl e) ->
  main w city
  = ([StPageConfig "wide" "Live Weather Dashboard";
      StTitle "Live Weather Forecast";
      StTextInput "Enter a city name:" "Lviv";
      HttpGet GEOCODING_API_URL [("name", PStr city); ("count", PInt 1)];
      StError ("Error during geocoding: " +:+ exception_text e);
      StError ("Could not find coordinates for '" +:+ city
               +:+ "'. Please check the spelling or try a different city.")],
     Ok tt).
Proof.
  intros Hc H.
  rewrite (main_not_resolved w city _ _ _ _ Hc
             (get_coordinates_failure w city e H) eq_refl).
  reflexivity.
Qed.

(** X6.  A first result whose latitude or longitude is null is treated
    as not found: the page shows "Could not find coordinates" and issues
    no weather request. *)
Theorem null_coordinates_are_not_found w city d loc rest latitude longitude :
  city <> "" ->
  response_json (http w GEOCODING_API_URL (geocoding_params city))
  = Ok (inr (PDict d)) ->
  dict_lookup "results" d = Some (PList (PDict loc :: rest)) ->
  dict_lookup "latitude" loc = Some latitude ->
  dict_lookup "longitude" loc = Some longitude ->
  latitude = PNone \/ longitude = PNone ->
  main w city
  = ([StPageConfig "wide" "Live Weather Dashboard";
      StTitle "Live Weather Forecast";
      StTextInput "Enter a city name:" "Lviv";
      HttpGet GEOCODING_API_URL [("name", PStr city); ("count", PInt 1)];
      StError ("Could not find coordinates for '" +:+ city
               +:+ "'. Please check the spelling or try a different city.")],
     Ok tt).
Proof.
  intros Hc H Hr Hlat Hlon Hnull.
  rewrite (main_not_resolved w city _ _ _ _ Hc
             (get_coordinates_first_result _ _ _ _ _ _ _ H Hr Hlat Hlon)).
  - reflexivity.
  - destruct Hnull as [-> | ->]; [reflexivity|apply orb_true_r].
Qed.

Lemma is_none_false v : v <> PNone -> is_none v = false.
Proof. destruct v; try reflexivity. congruence. Qed.

Lemma main_requests_prefix w city :
  exists k : nat,
    (requests (trace (main w city))).*1
    = take k [GEOCODING_API_URL; WEATHER_API_URL; WEATHER_API_URL].
Proof.
  rewrite main_requests. destruct (truthy (PStr city)); [|by exists 0%nat].
  destruct (outcome (get_coordinates w city)) as [[[lat lon] country]|];
    [|by exists 1%nat].
  destruct (negb (is_none lat) && negb (is_none lon)); [|by exists 1%nat].
  rewrite current_params.
  destruct (response_json _), (weather_params (utcnow w) lat lon true);
    first [by exists 3%nat|by exists 2%nat].
Qed.

(** *** Runs with a cache *)

Lemma requests_elements es : requests (elements es) = [].
Proof.
  induction es as [|e es IH]; [reflexivity|].
  cbn. destruct (request_of e) eqn:He; [exact IH|].
  cbn. rewrite He. exact IH.
Qed.

Lemma cache_data_requests {A} stored (body : world -> ui A) w :
  requests (trace (cache_data stored body w))
  = if cache_hit stored body then [] else requests (trace (body w)).
Proof.
  unfold cache_data, cache_hit. destruct stored as [past|]; [|reflexivity].
  destruct (outcome (body past)); [apply requests_elements|reflexivity].
Qed.

Lemma cache_data_empty {A} (body : world -> ui A) w :
  cache_data None body w = body w.
Proof. reflexivity. Qed.

Lemma cached_main_empty w city : cached_main empty_cache w city = main w city.
Proof. reflexivity. Qed.

Lemma cached_get_coordinates_requests c w city :
  requests (trace (cached_get_coordinates c w city))
  = if coordinates_cached c city then []
    else [(GEOCODING_API_URL, geocoding_params city)].
Proof.
  unfold cached_get_coordinates. rewrite cache_data_requests.
  fold (coordinates_cached c city).
  rewrite requests_get_coordinates. reflexivity.
Qed.

Lemma cached_fetch_weather_data_requests c w latitude longitude h :
  requests (trace (cached_fetch_weather_data c w latitude longitude h))
  = if weather_cached c latitude longitude h then []
    else match weather_params (utcnow w) latitude longitude h with
         | Ok params => [(WEATHER_API_URL, params)]
         | Raise _ => []
         end.
Proof.
  unfold cached_fetch_weather_data. rewrite cache_data_requests.
  fold (weather_cached c latitude longitude h).
  destruct (weather_cached c latitude longitude h); [reflexivity|].
  destruct (weather_params (utcnow w) latitude longitude h) as [p|e] eqn:Hp.
  - apply (fetch_weather_data_requests _ _ _ _ _ Hp).
  - rewrite (fetch_weather_data_raise _ _ _ _ _ Hp). reflexivity.
Qed.

Lemma cached_main_requests c w city :
  requests (trace (cached_main c w city))
  = if truthy (PStr city) then
      (requests (trace (cached_get_coordinates c w city))
       ++ match outcome (cached_get_coordinates c w city) with
          | Ok (lat, lon, _) =>
              if negb (is_none lat) && negb (is_none lon) then
                requests (trace (cached_fetch_weather_data c w lat lon false))
                ++ match outcome
                           (cached_fetch_weather_data c w lat lon false) with
                   | Ok _ =>
                       requests
                         (trace (cached_fetch_weather_data c w lat lon true))
                   | Raise _ => []
                   end
              else []
          | Raise _ => []
          end)%list
    else [].
Proof.
  unfold cached_main. rewrite !trace_bind. cbn [outcome emit snd trace fst].
  rewrite !requests_app. cbn [requests omap list_omap request_of app].
  fold (@requests RT).
  destruct (truthy (PStr city)); [|reflexivity].
  rewrite trace_bind.
  destruct (outcome (cached_get_coordinates c w city))
    as [[[lat lon] country]|]; [|symmetry; apply app_nil_r].
  rewrite requests_app. f_equal.
  destruct (negb (is_none lat) && negb (is_none lon)); [|reflexivity].
  rewrite trace_bind. cbn [outcome emit snd trace fst].
  rewrite requests_app. cbn [requests omap list_omap request_of app].
  fold (@requests RT).
  rewrite trace_bind.
  destruct (outcome (cached_fetch_weather_data c w lat lon false)) as [fd|];
    [|symmetry; apply app_nil_r].
  rewrite requests_app. f_equal.
  rewrite trace_bind.
  destruct (outcome (cached_fetch_weather_data c w lat lon true)) as [hd|];
    [|reflexivity].
  rewrite requests_app, trace_bind. cbn [outcome emit snd trace fst].
  rewrite requests_app. fold (render_tabs fd hd).
  rewrite render_tabs_no_requests. cbn. apply app_nil_r.
Qed.

(** X7.  Whatever the caches hold, the endpoints that a run of the page
    requests are picked in order from the sequence geocoding, weather,
    weather: at most three requests, at most one of them to the
    geocoding endpoint and none after a weather request.  A run in
    which nothing is cached is the page of the function bodies, and
    its requests are an initial part of that sequence. *)
Theorem page_requests_in_order c w city :
  sublist (requests (trace (cached_main c w city))).*1
    [GEOCODING_API_URL; WEATHER_API_URL; WEATHER_API_URL]
  /\ cached_main empty_cache w city = main w city
  /\ exists k : nat,
       (requests (trace (cached_main empty_cache w city))).*1
       = take k [GEOCODING_API_URL; WEATHER_API_URL; WEATHER_API_URL].
Proof.
  split; [|split; [reflexivity|apply main_requests_prefix]].
  rewrite cached_main_requests.
  destruct (truthy (PStr city)); [|apply sublist_nil_l].
  rewrite cached_get_coordinates_requests.
  assert (forall lat lon h,
             sublist
               (requests (trace (cached_fetch_weather_data c w lat lon h))).*1
               [WEATHER_API_URL]) as Hw.
  { intros lat lon h. rewrite cached_fetch_weather_data_requests.
    destruct (weather_cached c lat lon h); [apply sublist_nil_l|].
    destruct (weather_params _ _ _ _); [reflexivity|apply sublist_nil_l]. }
  rewrite fmap_app.
  apply (sublist_app _ [GEOCODING_API_URL] _
           [WEATHER_API_URL; WEATHER_API_URL]).
  { destruct (coordinates_cached c city); [apply sublist_nil_l|reflexivity]. }
  destruct (outcome (cached_get_coordinates c w city))
    as [[[lat lon] country]|]; [|apply sublist_nil_l].
  destruct (negb (is_none lat) && negb (is_none lon)); [|apply sublist_nil_l].
  rewrite fmap_app.
  apply (sublist_app _ [WEATHER_API_URL] _ [WEATHER_API_URL]); [apply Hw|].
  destruct (outcome (cached_fetch_weather_data c w lat lon false));
    [apply Hw|apply sublist_nil_l].
Qed.

(** X8.  When the resolver, run or answered from the cache, gives
    coordinates that are not null and the current-mode fetch returns,
    the requests of the page are, in this order and each one unless
    its call is answered from the cache: the geocoding request, the
    current-mode weather request and the historical-mode weather
    request, both for the coordinates that the resolver gave and the
    dates of this run.  So the page issues three requests when
    nothing is cached and none when all three calls are; a view that
    raises changes nothing of this. *)
Theorem resolved_page_requests c w city latitude longitude country forecast :
  city <> "" ->
  outcome (cached_get_coordinates c w city)
  = Ok (latitude, longitude, country) ->
  latitude <> PNone -> longitude <> PNone ->
  valid (utcnow w) -> 7 < toordinal (utcnow w) ->
  outcome (cached_fetch_weather_data c w latitude longitude false)
  = Ok forecast ->
  let today := date_of (utcnow w) in
  requests (trace (cached_main c w city))
  = ((if coordinates_cached c city then []
      else [(GEOCODING_API_URL, [("name", PStr city); ("count", PInt 1)])])
     ++ (if weather_cached c latitude longitude false then []
         else [(WEATHER_API_URL,
                [("latitude", latitude); ("longitude", longitude);
                 ("current",
                  PStr "temperature_2m,weather_code,precipitation_probability,wind_speed_10m");
                 ("hourly",
                  PStr "temperature_2m,precipitation_probability,wind_speed_10m");
                 ("forecast_days", PInt 1)])])
     ++ (if weather_cached c latitude longitude true then []
         else [(WEATHER_API_URL,
                [("latitude", latitude); ("longitude", longitude);
                 ("start_date",
                  PStr (strftime_ymd
                          (on_date (days_before 7 today) (utcnow w))));
                 ("end_date",
                  PStr (strftime_ymd
                          (on_date (days_before 1 today) (utcnow w))));
                 ("daily",
                  PStr "temperature_2m_max,temperature_2m_min,weather_code")])]))%list.
Proof.
  intros Hc Hg Hlat Hlon Hv Hord Hf today. rewrite cached_main_requests.
  rewrite (truthy_city city Hc), Hg, Hf.
  rewrite (is_none_false _ Hlat), (is_none_false _ Hlon). cbn [negb andb].
  rewrite cached_get_coordinates_requests,
    !cached_fetch_weather_data_requests.
  rewrite current_params, (historical_params _ _ _ Hv Hord). reflexivity.
Qed.

Lemma get_coordinates_resolved w city latitude longitude country :
  outcome (get_coordinates w city) = Ok (latitude, longitude, country) ->
  latitude <> PNone ->
  get_coordinates w city
  = ([HttpGet GEOCODING_API_URL (geocoding_params city)],
     Ok (latitude, longitude, country)).
Proof.
  intros Ho Hlat. pose proof (get_coordinates_trace w city) as Ht.
  destruct (response_json _) as [[e|data]|e] eqn:Hr.
  - rewrite (get_coordinates_failure w city e Hr) in Ho.
    injection Ho as <- _ _. congruence.
  - destruct (get_coordinates w city) as [es r]. cbn in Ho, Ht. congruence.
  - destruct (get_coordinates w city) as [es r]. cbn in Ho, Ht. congruence.
Qed.

Lemma in_tab_other i j (es : list event) :
  i <> j -> existsb (in_tab i) (InTab j <$> es) = false.
Proof.
  intros Hij. induction es as [|x es IH]; [reflexivity|].
  cbn. rewrite IH. destruct (Nat.eqb_spec i j); [contradiction|reflexivity].
Qed.

Lemma fetch_weather_data_no_tab w latitude longitude h i :
  existsb (in_tab i) (trace (fetch_weather_data w latitude longitude h)) = false.
Proof.
  destruct (weather_params (utcnow w) latitude longitude h) as [p|e] eqn:Hp.
  - rewrite (fetch_weather_data_run _ _ _ _ _ Hp).
    destruct (response_json _) as [[e|data]|e]; reflexivity.
  - rewrite (fetch_weather_data_raise _ _ _ _ _ Hp). reflexivity.
Qed.


(** X10.  The views are not isolated from each other: when both
    fetches have returned and the current view raises (for instance on
    a payload whose [current] is null), the page raises the same
    exception and nothing is rendered in the hourly and historical
    tabs. *)
Theorem current_view_exception_aborts_page
    w city latitude longitude country forecast_data historical_data e :
  city <> "" ->
  outcome (get_coordinates w city) = Ok (latitude, longitude, country) ->
  latitude <> PNone -> longitude <> PNone ->
  outcome (fetch_weather_data w latitude longitude false) = Ok forecast_data ->
  outcome (fetch_weather_data w latitude longitude true)
  = Ok historical_data ->
  outcome (tab1 forecast_data) = Raise e ->
  outcome (main w city) = Raise e
  /\ existsb (in_tab 2) (trace (main w city)) = false
  /\ existsb (in_tab 3) (trace (main w city)) = false.
Proof.
  intros Hc Hg Hlat Hlon Hfd Hhd Htab.
  pose proof (get_coordinates_resolved w city _ _ _ Hg Hlat) as Hgc.
  pose proof (fetch_weather_data_no_tab w latitude longitude false) as Hn1.
  pose proof (fetch_weather_data_no_tab w latitude longitude true) as Hn2.
  destruct (fetch_weather_data w latitude longitude false) as [es1 r1] eqn:H1.
  cbn in Hfd. subst r1.
  destruct (fetch_weather_data w latitude longitude true) as [es2 r2] eqn:H2.
  cbn in Hhd. subst r2.
  rewrite (main_resolved w city _ _ _ _ _ _ _ _ Hc Hgc
             (is_none_false _ Hlat) (is_none_false _ Hlon) H1 H2).
  cbn [trace fst] in Hn1, Hn2. unfold render_tabs. rewrite trace_bind, outcome_bind.
  assert (outcome (within (InTab 1) (tab1 forecast_data)) = Raise e) as ->
    by exact Htab.
  cbn [outcome trace fst snd within].
  split; [reflexivity|].
  rewrite !existsb_app, (Hn1 2%nat), (Hn1 3%nat), (Hn2 2%nat), (Hn2 3%nat),
    !in_tab_other by lia.
  split; reflexivity.
Qed.

Lemma truthy_dict (d : list (string * pyval)) : d <> [] -> truthy (PDict d) = true.
Proof. destruct d; [congruence|reflexivity]. Qed.

(** X16.  Without a temperature (the key is missing or its value is
    null, or there is no current block at all) the current view of a
    non-empty payload is the single warning "Could not retrieve current
    conditions." and no card, whatever the other fields hold. *)
Theorem current_view_warns_without_temperature payload current :
  payload <> [] ->
  py_get (PDict payload) "current" (PDict []) = Ok (PDict current) ->
  py_get (PDict current) "temperature_2m" PNone = Ok PNone ->
  hashable (default PNone (dict_lookup "weather_code" current)) = true ->
  tab1 (PDict payload)
  = ([StWarning "Could not retrieve current conditions."], Ok tt).
Proof.
  intros Hp Hcur Htemp Hcode. unfold tab1. rewrite (truthy_dict _ Hp), Hcur.
  cbn [lift mbind ui_bind]. rewrite Htemp. cbn [lift mbind ui_bind].
  destruct (get_weather_icon_hashable _ Hcode) as (icon & Hicon & _).
  cbn [py_get]. rewrite Hicon. reflexivity.
Qed.

(** X17.  The default of [forecast_data.get("current", {})] only covers
    a missing key: when [current] is present and is not an object (null,
    a number, a list), the current view raises [AttributeError] and
    renders nothing. *)
Theorem current_block_must_be_an_object payload v :
  dict_lookup "current" payload = Some v ->
  (forall current, v <> PDict current) ->
  exists msg, tab1 (PDict payload) = ([], Raise (AttributeError msg)).
Proof.
  intros Hcur Hv. unfold tab1.
  rewrite truthy_dict by (intros ->; discriminate Hcur).
  cbn [py_get lift mbind ui_bind]. rewrite Hcur. cbn [default from_option id].
  destruct v; try (eexists; reflexivity). destruct (Hv d eq_refl).
Qed.

(** X18.  Each view reads its own block only: two non-empty payloads
    with the same [current] have the same current view, with the same
    [hourly] the same hourly view, with the same [daily] the same
    historical view. *)
Theorem views_read_their_own_block p1 p2 :
  p1 <> [] -> p2 <> [] ->
  (dict_lookup "current" p1 = dict_lookup "current" p2 ->
   tab1 (PDict p1) = tab1 (PDict p2))
  /\ (dict_lookup "hourly" p1 = dict_lookup "hourly" p2 ->
      tab2 (PDict p1) = tab2 (PDict p2))
  /\ (dict_lookup "daily" p1 = dict_lookup "daily" p2 ->
      tab3 (PDict p1) = tab3 (PDict p2)).
Proof.
  intros H1 H2. unfold tab1, tab2, tab3.
  rewrite !(truthy_dict _ H1), !(truthy_dict _ H2). cbn [py_get].
  repeat split; intros ->; reflexivity.
Qed.

(** X19.  With an hourly block that has a time axis, the hourly view
    shows its subheader, then a line chart and, inside the expander, a
    table of one and the same frame built from the block; when pandas
    cannot build the frame, the subheader is already shown and the
    exception propagates. *)
Theorem hourly_view_renders_chart_and_table payload block :
  dict_lookup "hourly" payload = Some (PDict block) ->
  is_Some (dict_lookup "time" block) ->
  tab2 (PDict payload)
  = match time_indexed_frame (PDict block) with
    | Ok hourly_df =>
        ([StSubheader "Forecast for the Next 24 Hours";
          StLineChart hourly_df;
          InExpander "View Hourly Data Table" (StDataframe hourly_df)],
         Ok tt)
    | Raise e => ([StSubheader "Forecast for the Next 24 Hours"], Raise e)
    end.
Proof.
  intros Hh Ht. unfold tab2.
  rewrite truthy_dict by (intros ->; discriminate Hh).
  cbn [py_get lift mbind ui_bind]. rewrite Hh. cbn [default from_option id].
  unfold has_time_axis, py_contains.
  rewrite truthy_dict by (intros ->; destruct Ht; discriminate).
  rewrite (bool_decide_eq_true_2 _ Ht). cbn.
  destruct (time_indexed_frame _); reflexivity.
Qed.

(** X20.  With a daily block that has a time axis, the historical view
    shows its subheader, then a bar chart of the frame's columns
    [temperature_2m_max] and [temperature_2m_min], renamed to
    "Max Temp (°C)" and "Min Temp (°C)", and, inside the expander, a
    table of the whole frame; when pandas cannot build the frame or
    the frame lacks one of the two columns, the subheader is already
    shown and the exception propagates. *)
Theorem historical_view_renders_chart_and_table payload block :
  dict_lookup "daily" payload = Some (PDict block) ->
  is_Some (dict_lookup "time" block) ->
  tab3 (PDict payload)
  = match time_indexed_frame (PDict block) with
    | Ok historical_df =>
        match select_columns historical_df
                ["temperature_2m_max"; "temperature_2m_min"] with
        | Ok temp_df =>
            ([StSubheader "Weather for the Last 7 Days";
              StBarChart
                (rename_columns temp_df
                   [("temperature_2m_max", "Max Temp (°C)");
                    ("temperature_2m_min", "Min Temp (°C)")]);
              InExpander "View Historical Data Table"
                (StDataframe historical_df)],
             Ok tt)
        | Raise e => ([StSubheader "Weather for the Last 7 Days"], Raise e)
        end
    | Raise e => ([StSubheader "Weather for the Last 7 Days"], Raise e)
    end.
Proof.
  intros Hh Ht. unfold tab3.
  rewrite truthy_dict by (intros ->; discriminate Hh).
  cbn [py_get lift mbind ui_bind]. rewrite Hh. cbn [default from_option id].
  unfold has_time_axis, py_contains.
  rewrite truthy_dict by (intros ->; destruct Ht; discriminate).
  rewrite (bool_decide_eq_true_2 _ Ht). cbn.
  destruct (time_indexed_frame _); [|reflexivity]. cbn.
  destruct (select_columns _ _); reflexivity.
Qed.

(** X21.  The historical view shows one and the same warning, "Could
    not retrieve historical data.", when the payload is None or empty,
    when it has no daily block, and when the daily block has no time
    axis; it raises nothing. *)
Theorem historical_view_warns_without_time_axis historical_data :
  truthy historical_data = false
  \/ (exists payload,
        historical_data = PDict payload
        /\ (dict_lookup "daily" payload = None
            \/ exists block,
                 dict_lookup "daily" payload = Some (PDict block)
                 /\ dict_lookup "time" block = None)) ->
  tab3 historical_data
  = ([StWarning "Could not retrieve historical data."], Ok tt).
Proof.
  intros [H|(payload & -> & H)]; unfold tab3; [rewrite H; reflexivity|].
  destruct (truthy (PDict payload)); [|reflexivity].
  cbn [py_get lift mbind ui_bind].
  destruct H as [H|(block & H & Ht)]; rewrite H; cbn -[dict_lookup].
  - reflexivity.
  - unfold has_time_axis, py_contains.
    destruct (truthy (PDict block)); [rewrite Ht|]; reflexivity.
Qed.

(** X11.  In current mode [fetch_weather_data] issues its one request
    and then returns the parsed body unchanged, or, when one of the
    three calls raises a [RequestException], shows one error message
    with the cause and returns None.  It raises only what passes the
    [except] clause, the exception of one of the three calls that is
    no [RequestException], and then it shows nothing. *)
Theorem current_fetch_raises_only_uncaught w latitude longitude :
  let params :=
    [("latitude", latitude); ("longitude", longitude);
     ("current",
      PStr "temperature_2m,weather_code,precipitation_probability,wind_speed_10m");
     ("hourly",
      PStr "temperature_2m,precipitation_probability,wind_speed_10m");
     ("forecast_days", PInt 1)] in
  fetch_weather_data w latitude longitude false
  = match response_json (http w WEATHER_API_URL params) with
    | Ok (inr data) => ([HttpGet WEATHER_API_URL params], Ok data)
    | Ok (inl e) =>
        ([HttpGet WEATHER_API_URL params;
          StError ("Error fetching weather data: " +:+ exception_text e)],
         Ok PNone)
    | Raise e => ([HttpGet WEATHER_API_URL params], Raise e)
    end
  /\ (forall e,
        outcome (fetch_weather_data w latitude longitude false) = Raise e
        <-> http w WEATHER_API_URL params = Crashed e).
Proof.
  intros params.
  pose proof (fetch_weather_data_run w latitude longitude false params
                (current_params (utcnow w) latitude longitude)) as Hrun.
  split; [exact Hrun|]. intros e. rewrite Hrun. unfold response_json.
  destruct (http w WEATHER_API_URL params) as [detail|status body|crash].
  - split; discriminate.
  - destruct ((400 <=? status) && (status <? 600));
      [|destruct body]; split; discriminate.
  - cbn. split; congruence.
Qed.

(** X12.  Before 0001-01-08 there is no date seven days earlier: in
    historical mode [fetch_weather_data] then raises the
    [OverflowError] of the date subtraction, outside its [try] block,
    before any request is issued. *)
Theorem historical_fetch_overflows_in_first_week w latitude longitude :
  valid (utcnow w) -> toordinal (utcnow w) <= 7 ->
  fetch_weather_data w latitude longitude true
  = ([], Raise (OverflowError "date value out of range")).
Proof.
  intros Hv Hord. apply fetch_weather_data_raise. unfold weather_params.
  pose proof (datetime_sub_overflow (utcnow w) 7 Hv Hord ltac:(lia)) as H.
  change (Z.of_nat 7) with 7 in H.
  assert (timedelta_days 7
          = Ok {| days := 7; seconds := 0; microseconds := 0 |}) as Hw
    by reflexivity.
  rewrite Hw in *. cbn [mbind result_bind] in *. rewrite H. reflexivity.
Qed.

Lemma historical_params_same_day t1 t2 latitude longitude :
  valid t1 -> valid t2 -> date_of t1 = date_of t2 -> 7 < toordinal t1 ->
  weather_params t1 latitude longitude true
  = weather_params t2 latitude longitude true.
Proof.
  intros H1 H2 Hd Hord.
  assert (toordinal t2 = toordinal t1) as Ho.
  { change (ordinal (date_of t2) = ordinal (date_of t1)). now rewrite Hd. }
  rewrite (historical_params t1 _ _ H1 Hord).
  rewrite (historical_params t2 _ _ H2 ltac:(lia)).
  rewrite Hd, (strftime_on_date _ t1 t2), (strftime_on_date _ t1 t2).
  reflexivity.
Qed.

(** X13.  The historical fetch depends on the clock through the date
    only: two runs on the same day against the same service, at
    whatever times of the day, are equal. *)
Theorem historical_request_ignores_time_of_day w1 w2 latitude longitude :
  http w1 = http w2 ->
  valid (utcnow w1) -> valid (utcnow w2) ->
  date_of (utcnow w1) = date_of (utcnow w2) ->
  7 < toordinal (utcnow w1) ->
  fetch_weather_data w1 latitude longitude true
  = fetch_weather_data w2 latitude longitude true.
Proof.
  intros Hh H1 H2 Hd Hord. unfold fetch_weather_data, get_json.
  rewrite (historical_params_same_day _ _ latitude longitude H1 H2 Hd Hord), Hh.
  reflexivity.
Qed.

(** X14.  On every call date from 1000-01-08 on, so that both dates
    are written with a year of four digits, the two dates of the
    historical request are dates of the calendar (no February 30), the
    end date is the day before today, and the start date is six days
    before the end date: a window of seven days that never contains
    today. *)
Theorem historical_window_is_seven_calendar_days w latitude longitude :
  valid (utcnow w) -> ymd2ord 1000 1 8 <= toordinal (utcnow w) ->
  exists params start stop,
    requests (trace (fetch_weather_data w latitude longitude true))
    = [(WEATHER_API_URL, params)]
    /\ param_date params "start_date" = Some start
    /\ param_date params "end_date" = Some stop
    /\ calendar_date start /\ calendar_date stop
    /\ ordinal stop = toordinal (utcnow w) - 1
    /\ ordinal stop - ordinal start = 6.
Proof.
  intros Hv H1000. pose proof (valid_calendar_date _ Hv) as Hc.
  change (ymd2ord 1000 1 8) with 364885 in H1000.
  assert (7 < toordinal (utcnow w)) as Hord by lia.
  assert (7 < ordinal (date_of (utcnow w))) as Hord' by exact Hord.
  destruct (days_before_ordinal 7 _ Hc ltac:(lia)) as [Hc7 Ho7].
  destruct (days_before_ordinal 1 _ Hc ltac:(lia)) as [Hc1 Ho1].
  pose proof (historical_params _ latitude longitude Hv Hord) as Hp.
  eexists _, (days_before 7 (date_of (utcnow w))),
    (days_before 1 (date_of (utcnow w))).
  split; [exact (fetch_weather_data_requests _ _ _ _ _ Hp)|].
  unfold param_date. cbn [dict_lookup String.eqb Ascii.eqb Bool.eqb].
  split; [apply strftime_days_before;
          [exact Hv|change (ymd2ord 1000 1 1) with 364878; lia]|].
  split; [apply strftime_days_before;
          [exact Hv|change (ymd2ord 1000 1 1) with 364878; lia]|].
  split; [exact Hc7|]. split; [exact Hc1|].
  change (toordinal (utcnow w)) with (ordinal (date_of (utcnow w))). lia.
Qed.

(** X15.  In the current view the label of the temperature card
    carries the icon of the payload's weather code: the table's glyph
    for that integer, and the unknown glyph for an integer that the
    table does not know. *)
Theorem current_view_shows_icon_of_code payload current temperature code :
  dict_lookup "current" payload = Some (PDict current) ->
  dict_lookup "temperature_2m" current = Some temperature ->
  temperature <> PNone ->
  dict_lookup "weather_code" current = Some (PInt code) ->
  exists rest,
    tab1 (PDict payload)
    = (StColumns 3
       :: StMetric 1
            ("Temperature " +:+ default UNKNOWN_ICON (WEATHER_ICONS !! code))
            (py_str temperature +:+ "°C")
       :: rest,
       Ok tt).
Proof.
  intros Hcur Htemp Hnone Hcode.
  erewrite (tab1_with_temperature _ _ _ _ Hcur Htemp Hnone).
  - eexists. reflexivity.
  - rewrite Hcode. reflexivity.
Qed.


End MoreFacts.

(** ** Concrete runs of these properties *)

(** A name that the geocoding service does not know. *)
Lemma unknown_name_run :
  response_json
    (http (constant_world (Responded 200 (inr (PDict nothing_found))))
       GEOCODING_API_URL (geocoding_params "Atlantis"))
  = Ok (inr (PDict nothing_found))
  /\ dict_lookup "results" nothing_found = None
  /\ get_coordinates (RT := plain_runtime)
       (constant_world (Responded 200 (inr (PDict nothing_found)))) "Atlantis"
     = ([HttpGet GEOCODING_API_URL (geocoding_params "Atlantis")], Ok NotFound)
  /\ existsb is_weather_request
       (trace (main (RT := plain_runtime)
                 (constant_world (Responded 200 (inr (PDict nothing_found))))
                 "Atlantis")) = false.
Proof.
  split; [reflexivity|]. split; [reflexivity|].
  apply (missing_results_key_is_not_found (RT := plain_runtime)
           (constant_world (Responded 200 (inr (PDict nothing_found))))
           "Atlantis" nothing_found); reflexivity.
Defined.

(** A first result without a latitude. *)
Lemma result_without_latitude_run :
  dict_lookup "latitude" no_latitude = None
  /\ exists key,
       get_coordinates (RT := plain_runtime)
         (constant_world
            (Responded 200
               (inr (PDict [("results", PList [PDict no_latitude])]))))
         "Lviv"
       = ([HttpGet GEOCODING_API_URL (geocoding_params "Lviv")],
          Raise (KeyError key))
       /\ (key = "latitude" \/ key = "longitude")
       /\ dict_lookup key no_latitude = None.
Proof.
  split; [reflexivity|].
  apply (incomplete_first_result_raises (RT := plain_runtime)
           (constant_world
              (Responded 200
                 (inr (PDict [("results", PList [PDict no_latitude])]))))
           "Lviv" [("results", PList [PDict no_latitude])] no_latitude []);
    [reflexivity|reflexivity|left; reflexivity].
Defined.

(** The page when the connection is refused. *)
Lemma refused_connection_page :
  "Lviv" <> ""
  /\ main (RT := plain_runtime) failing_world "Lviv"
     = ([StPageConfig "wide" "Live Weather Dashboard";
         StTitle "Live Weather Forecast";
         StTextInput "Enter a city name:" "Lviv";
         HttpGet GEOCODING_API_URL [("name", PStr "Lviv"); ("count", PInt 1)];
         StError "Error during geocoding: connection refused";
         StError ("Could not find coordinates for '" +:+ "Lviv"
                  +:+ "'. Please check the spelling or try a different city.")],
        Ok tt).
Proof.
  assert ("Lviv" <> "") as Hc by discriminate.
  split; [exact Hc|].
  exact (failed_geocoding_page (RT := plain_runtime) failing_world "Lviv"
           (ConnectionError "connection refused") Hc eq_refl).
Defined.

(** The page for a first result whose latitude is null. *)
Lemma null_latitude_page :
  dict_lookup "latitude" null_latitude = Some PNone
  /\ outcome
       (main (RT := plain_runtime)
          (constant_world
             (Responded 200
                (inr (PDict [("results", PList [PDict null_latitude])]))))
          "Lviv") = Ok tt
  /\ existsb is_weather_request
       (trace
          (main (RT := plain_runtime)
             (constant_world
                (Responded 200
                   (inr (PDict [("results", PList [PDict null_latitude])]))))
             "Lviv")) = false.
Proof.
  assert ("Lviv" <> "") as Hc by discriminate.
  split; [reflexivity|].
  rewrite (null_coordinates_are_not_found (RT := plain_runtime)
             (constant_world
                (Responded 200
                   (inr (PDict [("results", PList [PDict null_latitude])]))))
             "Lviv" [("results", PList [PDict null_latitude])] null_latitude []
             PNone (PFloat (FFin false "2403" 2))
             Hc eq_refl eq_refl eq_refl eq_refl (or_introl eq_refl)).
  split; reflexivity.
Defined.

(** The requests of the page for Lviv at 12:30 on 2024-06-15, when the
    resolver is answered from an entry made at noon and the fetcher's
    entries have expired: the two weather requests, and no geocoding
    request. *)
Lemma lviv_page_requests :
  outcome
    (cached_get_coordinates (RT := plain_runtime)
       (resolver_cache lviv_world) half_past_noon_world "Lviv")
  = Ok (PFloat (FFin false "4984" 2), PFloat (FFin false "2403" 2),
        PStr "Ukraine")
  /\ Datetime.valid (utcnow half_past_noon_world)
  /\ coordinates_cached (RT := plain_runtime)
       (resolver_cache lviv_world) "Lviv" = true
  /\ requests
       (trace
          (cached_main (RT := plain_runtime)
             (resolver_cache lviv_world) half_past_noon_world "Lviv"))
     = [(WEATHER_API_URL,
         [("latitude", PFloat (FFin false "4984" 2));
          ("longitude", PFloat (FFin false "2403" 2));
          ("current",
           PStr "temperature_2m,weather_code,precipitation_probability,wind_speed_10m");
          ("hourly",
           PStr "temperature_2m,precipitation_probability,wind_speed_10m");
          ("forecast_days", PInt 1)]);
        (WEATHER_API_URL,
         [("latitude", PFloat (FFin false "4984" 2));
          ("longitude", PFloat (FFin false "2403" 2));
          ("start_date", PStr "2024-06-08");
          ("end_date", PStr "2024-06-14");
          ("daily",
           PStr "temperature_2m_max,temperature_2m_min,weather_code")])].
Proof.
  assert ("Lviv" <> "") as Hc by discriminate.
  assert (PFloat (FFin false "4984" 2) <> PNone) as Hlat by discriminate.
  assert (PFloat (FFin false "2403" 2) <> PNone) as Hlon by discriminate.
  assert (Datetime.valid (utcnow half_past_noon_world)) as Hv
    by (repeat split; vm_compute; discriminate).
  assert (7 < Datetime.toordinal (utcnow half_past_noon_world)) as Ho
    by (vm_compute; reflexivity).
  split; [reflexivity|]. split; [exact Hv|]. split; [reflexivity|].
  exact (resolved_page_requests (RT := plain_runtime)
           (resolver_cache lviv_world) half_past_noon_world "Lviv"
           _ _ (PStr "Ukraine")
           (PDict [("results", PList [PDict lviv_result])])
           Hc eq_refl Hlat Hlon Hv Ho eq_refl).
Defined.


(** The page for a forecast payload whose current block is null. *)
Lemma null_current_page :
  outcome
    (fetch_weather_data (RT := plain_runtime) null_current_world
       (PFloat (FFin false "4984" 2)) (PFloat (FFin false "2403" 2)) false)
  = Ok (PDict [("current", PNone)])
  /\ outcome
       (fetch_weather_data (RT := plain_runtime) null_current_world
          (PFloat (FFin false "4984" 2)) (PFloat (FFin false "2403" 2)) true)
     = Ok (PDict [("current", PNone)])
  /\ outcome (tab1 (RT := plain_runtime) (PDict [("current", PNone)]))
     = Raise (AttributeError "object has no attribute 'get'")
  /\ outcome (main (RT := plain_runtime) null_current_world "Lviv")
     = Raise (AttributeError "object has no attribute 'get'")
  /\ existsb (in_tab 2)
       (trace (main (RT := plain_runtime) null_current_world "Lviv")) = false
  /\ existsb (in_tab 3)
       (trace (main (RT := plain_runtime) null_current_world "Lviv")) = false.
Proof.
  assert ("Lviv" <> "") as Hc by discriminate.
  assert (PFloat (FFin false "4984" 2) <> PNone) as Hlat by discriminate.
  assert (PFloat (FFin false "2403" 2) <> PNone) as Hlon by discriminate.
  split; [reflexivity|]. split; [reflexivity|]. split; [reflexivity|].
  exact (current_view_exception_aborts_page (RT := plain_runtime)
           null_current_world "Lviv" _ _ (PStr "Ukraine")
           (PDict [("current", PNone)]) (PDict [("current", PNone)])
           (AttributeError "object has no attribute 'get'")
           Hc eq_refl Hlat Hlon eq_refl eq_refl eq_refl).
Defined.

(** A clock that shows 0001-01-05. *)
Lemma first_week_fetch :
  Datetime.valid (utcnow first_week_world)
  /\ Datetime.toordinal (utcnow first_week_world) <= 7
  /\ fetch_weather_data (RT := plain_runtime) first_week_world
       (PFloat (FFin false "4984" 2)) (PFloat (FFin false "2403" 2)) true
     = ([], Raise (OverflowError "date value out of range")).
Proof.
  assert (Datetime.valid (utcnow first_week_world)) as Hv
    by (repeat split; vm_compute; discriminate).
  assert (Datetime.toordinal (utcnow first_week_world) <= 7) as Ho
    by (vm_compute; discriminate).
  split; [exact Hv|]. split; [exact Ho|].
  exact (historical_fetch_overflows_in_first_week (RT := plain_runtime)
           first_week_world _ _ Hv Ho).
Defined.

(** Noon and the last microsecond of 2024-06-15. *)
Lemma noon_and_evening_fetch :
  http lviv_world = http evening_world
  /\ Calendar.date_of (utcnow lviv_world)
     = Calendar.date_of (utcnow evening_world)
  /\ utcnow lviv_world <> utcnow evening_world
  /\ fetch_weather_data (RT := plain_runtime) lviv_world
       (PFloat (FFin false "4984" 2)) (PFloat (FFin false "2403" 2)) true
     = fetch_weather_data (RT := plain_runtime) evening_world
         (PFloat (FFin false "4984" 2)) (PFloat (FFin false "2403" 2)) true.
Proof.
  assert (Datetime.valid (utcnow lviv_world)) as Hv1
    by (repeat split; vm_compute; discriminate).
  assert (Datetime.valid (utcnow evening_world)) as Hv2
    by (repeat split; vm_compute; discriminate).
  assert (7 < Datetime.toordinal (utcnow lviv_world)) as Ho
    by (vm_compute; reflexivity).
  split; [reflexivity|]. split; [reflexivity|]. split; [discriminate|].
  exact (historical_request_ignores_time_of_day (RT := plain_runtime)
           lviv_world evening_world _ _ eq_refl Hv1 Hv2 eq_refl Ho).
Defined.

(** The window of a run on 2024-06-15. *)
Lemma window_on_2024_06_15 :
  Datetime.valid (utcnow lviv_world)
  /\ Datetime.ymd2ord 1000 1 8 <= Datetime.toordinal (utcnow lviv_world)
  /\ exists params start stop,
       requests
         (trace (fetch_weather_data (RT := plain_runtime) lviv_world
                   (PFloat (FFin false "4984" 2))
                   (PFloat (FFin false "2403" 2)) true))
       = [(WEATHER_API_URL, params)]
       /\ param_date params "start_date" = Some start
       /\ param_date params "end_date" = Some stop
       /\ Calendar.calendar_date start /\ Calendar.calendar_date stop
       /\ Calendar.ordinal stop = Datetime.toordinal (utcnow lviv_world) - 1
       /\ Calendar.ordinal stop - Calendar.ordinal start = 6.
Proof.
  assert (Datetime.valid (utcnow lviv_world)) as Hv
    by (repeat split; vm_compute; discriminate).
  assert (Datetime.ymd2ord 1000 1 8
          <= Datetime.toordinal (utcnow lviv_world)) as Ho
    by (vm_compute; discriminate).
  split; [exact Hv|]. split; [exact Ho|].
  exact (historical_window_is_seven_calendar_days (RT := plain_runtime)
           lviv_world _ _ Hv Ho).
Defined.

(** The sample payload, whose weather code is 3. *)
Lemma sample_payload_icon :
  dict_lookup "weather_code" sample_current = Some (PInt 3)
  /\ exists rest,
       tab1 (RT := plain_runtime) (PDict [("current", PDict sample_current)])
       = (StColumns 3 :: StMetric 1 "Temperature ☁️" "21.5°C" :: rest, Ok tt).
Proof.
  assert (PFloat (FFin false "215" 2) <> PNone) as Hne by discriminate.
  split; [reflexivity|].
  exact (current_view_shows_icon_of_code (RT := plain_runtime)
           [("current", PDict sample_current)] sample_current
           (PFloat (FFin false "215" 2)) 3 eq_refl eq_refl Hne eq_refl).
Defined.

(** A current block with a weather code and no temperature. *)
Lemma current_view_without_temperature :
  py_get (PDict [("weather_code", PInt 3)]) "temperature_2m" PNone = Ok PNone
  /\ tab1 (RT := plain_runtime)
       (PDict [("current", PDict [("weather_code", PInt 3)])])
     = ([StWarning "Could not retrieve current conditions."], Ok tt).
Proof.
  assert ([("current", PDict [("weather_code", PInt 3)])] <> []) as Hne
    by discriminate.
  split; [reflexivity|].
  exact (current_view_warns_without_temperature (RT := plain_runtime)
           [("current", PDict [("weather_code", PInt 3)])]
           [("weather_code", PInt 3)] Hne eq_refl eq_refl eq_refl).
Defined.

(** A payload whose current block is null. *)
Lemma current_view_of_null_block :
  dict_lookup "current" [("current", PNone)] = Some PNone
  /\ exists msg,
       tab1 (RT := plain_runtime) (PDict [("current", PNone)])
       = ([], Raise (AttributeError msg)).
Proof.
  assert (forall current, PNone <> PDict current) as Hne
    by (intros current; discriminate).
  split; [reflexivity|].
  exact (current_block_must_be_an_object (RT := plain_runtime)
           [("current", PNone)] PNone eq_refl Hne).
Defined.

(** The current view does not change when an hourly block is added. *)
Lemma current_view_ignores_hourly_block :
  dict_lookup "current" [("current", PDict sample_current)]
  = dict_lookup "current"
      [("current", PDict sample_current); ("hourly", PDict hourly_block)]
  /\ tab1 (RT := plain_runtime) (PDict [("current", PDict sample_current)])
     = tab1 (RT := plain_runtime)
         (PDict [("current", PDict sample_current);
                 ("hourly", PDict hourly_block)]).
Proof.
  assert ([("current", PDict sample_current)] <> []) as H1 by discriminate.
  assert ([("current", PDict sample_current);
           ("hourly", PDict hourly_block)] <> []) as H2 by discriminate.
  split; [reflexivity|].
  exact (proj1 (views_read_their_own_block (RT := plain_runtime) _ _ H1 H2)
           eq_refl).
Defined.

(** The hourly view of a block of two hours. *)
Lemma hourly_view_of_two_hours :
  is_Some (dict_lookup "time" hourly_block)
  /\ tab2 (RT := plain_runtime) (PDict [("hourly", PDict hourly_block)])
     = ([StSubheader "Forecast for the Next 24 Hours";
         StLineChart (PDict hourly_block : frame (Runtime := plain_runtime));
         InExpander "View Hourly Data Table"
           (StDataframe (PDict hourly_block
                         : frame (Runtime := plain_runtime)))],
        Ok tt).
Proof.
  assert (is_Some (dict_lookup "time" hourly_block)) as Ht
    by (eexists; reflexivity).
  split; [exact Ht|].
  exact (hourly_view_renders_chart_and_table (RT := plain_runtime)
           [("hourly", PDict hourly_block)] hourly_block eq_refl Ht).
Defined.

(** The historical view of a block of two days: the chart has the two
    temperature columns under their display names, the table has the
    time axis too. *)
Lemma historical_view_of_two_days :
  is_Some (dict_lookup "time" daily_block)
  /\ tab3 (RT := plain_runtime) (PDict [("daily", PDict daily_block)])
     = ([StSubheader "Weather for the Last 7 Days";
         StBarChart
           (PDict [("Max Temp (°C)",
                    PList [PFloat (FFin false "251" 2); PInt 24]);
                   ("Min Temp (°C)",
                    PList [PInt 14; PFloat (FFin false "135" 2)])]
            : frame (Runtime := plain_runtime));
         InExpander "View Historical Data Table"
           (StDataframe (PDict daily_block
                         : frame (Runtime := plain_runtime)))],
        Ok tt).
Proof.
  assert (is_Some (dict_lookup "time" daily_block)) as Ht
    by (eexists; reflexivity).
  split; [exact Ht|].
  exact (historical_view_renders_chart_and_table (RT := plain_runtime)
           [("daily", PDict daily_block)] daily_block eq_refl Ht).
Defined.

(** The historical view after a failed fetch, which returned None. *)
Lemma historical_view_of_none :
  truthy PNone = false
  /\ tab3 (RT := plain_runtime) PNone
     = ([StWarning "Could not retrieve historical data."], Ok tt).
Proof.
  split; [reflexivity|].
  exact (historical_view_warns_without_time_axis (RT := plain_runtime) PNone
           (or_introl eq_refl)).
Defined.
